(** * Stop-loss and take-profit core of the trading bot

    A shallow embedding of [internal/executors/trailing_stop_calculator.go],
    [internal/executors/stoploss_manager.go] and
    [internal/executors/takeprofit_manager.go].

    Numbers: the Go code computes on [float64].  Prices, quantities and
    percentages are embedded as exact rationals [Q]; comparisons are the
    boolean ones of the source ([<], [>], [<=], [>=]).  Statements about
    computed values use [==] (equality of rationals).

    Effects: the exchange is an oracle (a record of answer functions) and
    every call returns the requests it sent, so that "an order was placed"
    and "nothing was sent" are observable.  Calls are taken one at a time:
    the mutex of the manager guards the map only, and the interleaving of
    goroutines is not part of the model. *)

From stdpp Require Import base option list gmap strings pretty.
From Stdlib Require Import Ascii String QArith Qabs Qround Lqa Sorted.

Open Scope Q_scope.
Open Scope string_scope.
Open Scope list_scope.

(** ** Comparisons of the source on rationals *)

Definition Qltb (x y : Q) : bool := negb (Qle_bool y x).
Definition Qgtb (x y : Q) : bool := Qltb y x.
Definition Qgeb (x y : Q) : bool := Qle_bool y x.

Lemma Qltb_lt x y : Qltb x y = true <-> x < y.
Proof.
  unfold Qltb. rewrite negb_true_iff, <- not_true_iff_false, Qle_bool_iff.
  split; [apply Qnot_le_lt | apply Qlt_not_le].
Qed.

Lemma Qltb_ge x y : Qltb x y = false <-> y <= x.
Proof. unfold Qltb. rewrite negb_false_iff. apply Qle_bool_iff. Qed.

Lemma Qgtb_gt x y : Qgtb x y = true <-> y < x.
Proof. apply Qltb_lt. Qed.

Lemma Qgtb_le x y : Qgtb x y = false <-> x <= y.
Proof. apply Qltb_ge. Qed.

Lemma Qgeb_ge x y : Qgeb x y = true <-> y <= x.
Proof. apply Qle_bool_iff. Qed.

(** ** Strings of the source *)

(** [strings.ReplaceAll(s, "/", "")]: every slash is dropped. *)
Fixpoint remove_slashes (s : string) : string :=
  match s with
  | EmptyString => EmptyString
  | String c rest =>
      if Ascii.eqb c "/"%char then remove_slashes rest
      else String c (remove_slashes rest)
  end.

(** [strings.ToUpper] on the bytes [a]..[z]; the symbols of the bot are
    ASCII tickers, other bytes are kept as they are. *)
Definition upper_ascii (c : ascii) : ascii :=
  let n := nat_of_ascii c in
  if (97 <=? n)%nat && (n <=? 122)%nat then ascii_of_nat (n - 32) else c.

Fixpoint ToUpper (s : string) : string :=
  match s with
  | EmptyString => EmptyString
  | String c rest => String (upper_ascii c) (ToUpper rest)
  end.

(** ** trailing_stop_calculator.go *)

Module Calculator.

Record TrailingStopConfig := {
  InitialATRPeriod : Z;
  InitialATRMultiplier : Q;
  TrailingATRPeriod : Z;
  TrailingATRMultiplier : Q;
  UpdateThreshold : Q;
  MinStopDistance : Q;
  MaxStopDistance : Q
}.

(** The zero value Go returns when a map has no entry for a key. *)
Definition zeroConfig : TrailingStopConfig :=
  {| InitialATRPeriod := 0; InitialATRMultiplier := 0;
     TrailingATRPeriod := 0; TrailingATRMultiplier := 0;
     UpdateThreshold := 0; MinStopDistance := 0; MaxStopDistance := 0 |}.

(** The calculator is its table of configurations (the logger only
    prints). *)
Record TrailingStopCalculator := {
  configs : gmap string TrailingStopConfig
}.

Definition mkConfig (maxDist : Q) : TrailingStopConfig :=
  {| InitialATRPeriod := 3; InitialATRMultiplier := 2.5;
     TrailingATRPeriod := 3; TrailingATRMultiplier := 2.5;
     UpdateThreshold := 0.3; MinStopDistance := 0.5;
     MaxStopDistance := maxDist |}.

Definition getDefaultConfigs : gmap string TrailingStopConfig :=
  <["DEFAULT" := mkConfig 5.0]>
  (<["XRPUSDT" := mkConfig 8.0]>
  (<["BNBUSDT" := mkConfig 7.0]>
  (<["SOLUSDT" := mkConfig 8.0]>
  (<["ETHUSDT" := mkConfig 6.0]>
  (<["BTCUSDT" := mkConfig 6.0]> ∅))))).

Definition NewTrailingStopCalculator : TrailingStopCalculator :=
  {| configs := getDefaultConfigs |}.

Definition GetConfig (calc : TrailingStopCalculator) (symbol : string)
  : TrailingStopConfig :=
  let normalizedSymbol := ToUpper (remove_slashes symbol) in
  match configs calc !! normalizedSymbol with
  | Some config => config
  | None => default zeroConfig (configs calc !! "DEFAULT")
  end.

Definition CalculateInitialStop (calc : TrailingStopCalculator)
  (symbol : string) (entryPrice atr : Q) (side : string) : Q :=
  let config := GetConfig calc symbol in
  let stopDistance := InitialATRMultiplier config * atr in
  if String.eqb side "long" then entryPrice - stopDistance
  else entryPrice + stopDistance.

Definition CalculateTrailingStop (calc : TrailingStopCalculator)
  (symbol : string) (highestPrice atr : Q) (side : string) : Q :=
  let config := GetConfig calc symbol in
  let stopDistance := TrailingATRMultiplier config * atr in
  if String.eqb side "long" then highestPrice - stopDistance
  else highestPrice + stopDistance.

Definition IsValidUpdate (side : string) (oldStopLoss newStopLoss : Q) : bool :=
  if String.eqb side "long" then Qgtb newStopLoss oldStopLoss
  else Qltb newStopLoss oldStopLoss.

(** The float64 division by a zero [oldStopLoss] is written out: the
    quotient is an infinity, which is above every threshold, unless the
    numerator is zero too, when it is a NaN and the comparison fails.
    Elsewhere the arithmetic is exact, where float64 rounds each
    operation: the two can differ for a change within rounding of the
    threshold, and no statement below depends on such a change. *)
Definition ShouldUpdate (calc : TrailingStopCalculator)
  (symbol : string) (oldStopLoss newStopLoss : Q) : bool :=
  let config := GetConfig calc symbol in
  if Qeq_bool oldStopLoss 0 then
    negb (Qeq_bool (newStopLoss - oldStopLoss) 0)
  else
    let changePercent :=
      Qabs ((newStopLoss - oldStopLoss) / oldStopLoss) * 100 in
    Qgeb changePercent (UpdateThreshold config).

(** The float64 division by a zero [entryPrice] is written out: the
    distance is an infinity or a NaN, which is never between the two
    bounds.  Elsewhere the arithmetic is exact, where float64 rounds each
    operation: the two can differ for a distance within rounding of a
    bound, and no statement below depends on such a distance. *)
Definition ValidateStopDistance (calc : TrailingStopCalculator)
  (symbol : string) (entryPrice stopPrice : Q) (side : string) : bool :=
  let config := GetConfig calc symbol in
  if Qeq_bool entryPrice 0 then false
  else
    let distancePercent :=
      if String.eqb side "long"
      then ((entryPrice - stopPrice) / entryPrice) * 100
      else ((stopPrice - entryPrice) / entryPrice) * 100 in
    Qgeb distancePercent (MinStopDistance config)
    && Qle_bool distancePercent (MaxStopDistance config).

End Calculator.

(** ** The exchange

    The Binance client and [BinanceExecutor.ExecuteTrade] are outside the
    three files.  Their answers are given by an oracle; each request made
    is recorded.  A stop order carries its price and its quantity as the
    strings [fmt.Sprintf] prints, as in the source; the printing is part
    of the oracle too, so that nothing is assumed on how a float64 prints.
    The free-text reason passed to [ExecuteTrade] and the loggers are left
    out: they only print. *)

Inductive TradeAction := ActionCloseLong | ActionCloseShort.

Inductive SideType := SideTypeBuy | SideTypeSell.

Record TradeResult := {
  Success : bool;
  Price : Q;
  Message : string
}.

Inductive Request :=
| ReqCreateStopOrder (binanceSymbol : string) (orderSide : SideType)
    (stopPrice quantity : string)
| ReqCancelOrder (binanceSymbol : string) (orderID : string)
| ReqExecuteTrade (symbol : string) (action : TradeAction) (quantity : Q).

Record Exchange := {
  (** [fmt.Sprintf("%.2f", stopPrice)] *)
  sprintf_2f : Q -> string;
  (** [fmt.Sprintf("%.4f", pos.Quantity)] *)
  sprintf_4f : Q -> string;
  (** [NewCreateOrderService()...Do(ctx)] on the symbol, the side and the
      printed stop price and quantity: the order id, or an error. *)
  createOrder : string -> SideType -> string -> string -> Z + string;
  (** [NewCancelOrderService()...Do(ctx)]: [None] when it succeeds. *)
  cancelOrder : string -> string -> option string;
  executeTrade : string -> TradeAction -> Q -> TradeResult;
  (** [time.Now()] *)
  now : Z
}.

Inductive Error :=
| ErrPositionNotFound (symbol : string)   (* "持仓 %s 不存在" *)
| ErrLongOnlyUp                           (* "多仓止损只能向上移动" *)
| ErrShortOnlyDown                        (* "空仓止损只能向下移动" *)
| ErrPlaceStop (cause : string)           (* "下止损单失败: %w" *)
| ErrCancelStop (cause : string)          (* "取消止损单失败: %w" *)
| ErrWrap (inner : Error)                 (* "下止损单失败: %w" around an Error *)
| ErrStopLossClose (message : string)     (* "止损平仓失败: %s" *)
| ErrTakeProfit (message : string).       (* "执行止盈失败: %s" *)

(** [Config.GetBinanceSymbolFor] *)
Definition GetBinanceSymbolFor (symbol : string) : string :=
  remove_slashes symbol.

(** ** Positions *)

Record StopLossEvent := {
  OldStop : Q;
  NewStop : Q;
  Reason : string;
  Trigger : string;
  Timestamp : Z
}.

Record TakeProfitLevel := {
  Level : Z;
  RiskRewardRatio : Q;
  Percentage : Q;
  TargetPrice : Q;
  Executed : bool;
  ExecutedTime : option Z;
  ExecutedPrice : Q;
  NewStopLoss : Q
}.

Record TakeProfitConfig := {
  Enabled : bool;
  Levels : list TakeProfitLevel
}.

(** Modelled from the spec: the [Position] struct and its methods
    [AddStopLossEvent], [UpdatePrice] and [ShouldTriggerStopLoss] are
    declared in a file of the package that is not among the sources.  The
    fields are those the three files read and write; the history is the
    spec's ordered append-only log of (old, new, reason, source,
    timestamp); a price tick sets the current price and moves the extreme
    price only on a strict improvement; the stop triggers at
    [price <= stop] for long and [price >= stop] for short. *)
Record Position := {
  Symbol : string;
  Side : string;
  EntryPrice : Q;
  Quantity : Q;
  InitialStopLoss : Q;
  CurrentStopLoss : Q;
  HighestPrice : Q;
  CurrentPrice : Q;
  StopLossType : string;
  StopLossOrderID : string;
  StopLossHistory : list StopLossEvent;
  TakeProfit : option TakeProfitConfig
}.

Definition set_Quantity (v : Q) (p : Position) : Position :=
  {| Symbol := Symbol p; Side := Side p; EntryPrice := EntryPrice p;
     Quantity := v; InitialStopLoss := InitialStopLoss p;
     CurrentStopLoss := CurrentStopLoss p; HighestPrice := HighestPrice p;
     CurrentPrice := CurrentPrice p; StopLossType := StopLossType p;
     StopLossOrderID := StopLossOrderID p;
     StopLossHistory := StopLossHistory p; TakeProfit := TakeProfit p |}.

Definition set_CurrentStopLoss (v : Q) (p : Position) : Position :=
  {| Symbol := Symbol p; Side := Side p; EntryPrice := EntryPrice p;
     Quantity := Quantity p; InitialStopLoss := InitialStopLoss p;
     CurrentStopLoss := v; HighestPrice := HighestPrice p;
     CurrentPrice := CurrentPrice p; StopLossType := StopLossType p;
     StopLossOrderID := StopLossOrderID p;
     StopLossHistory := StopLossHistory p; TakeProfit := TakeProfit p |}.

Definition set_HighestPrice (v : Q) (p : Position) : Position :=
  {| Symbol := Symbol p; Side := Side p; EntryPrice := EntryPrice p;
     Quantity := Quantity p; InitialStopLoss := InitialStopLoss p;
     CurrentStopLoss := CurrentStopLoss p; HighestPrice := v;
     CurrentPrice := CurrentPrice p; StopLossType := StopLossType p;
     StopLossOrderID := StopLossOrderID p;
     StopLossHistory := StopLossHistory p; TakeProfit := TakeProfit p |}.

Definition set_CurrentPrice (v : Q) (p : Position) : Position :=
  {| Symbol := Symbol p; Side := Side p; EntryPrice := EntryPrice p;
     Quantity := Quantity p; InitialStopLoss := InitialStopLoss p;
     CurrentStopLoss := CurrentStopLoss p; HighestPrice := HighestPrice p;
     CurrentPrice := v; StopLossType := StopLossType p;
     StopLossOrderID := StopLossOrderID p;
     StopLossHistory := StopLossHistory p; TakeProfit := TakeProfit p |}.

Definition set_StopLossType (v : string) (p : Position) : Position :=
  {| Symbol := Symbol p; Side := Side p; EntryPrice := EntryPrice p;
     Quantity := Quantity p; InitialStopLoss := InitialStopLoss p;
     CurrentStopLoss := CurrentStopLoss p; HighestPrice := HighestPrice p;
     CurrentPrice := CurrentPrice p; StopLossType := v;
     StopLossOrderID := StopLossOrderID p;
     StopLossHistory := StopLossHistory p; TakeProfit := TakeProfit p |}.

Definition set_StopLossOrderID (v : string) (p : Position) : Position :=
  {| Symbol := Symbol p; Side := Side p; EntryPrice := EntryPrice p;
     Quantity := Quantity p; InitialStopLoss := InitialStopLoss p;
     CurrentStopLoss := CurrentStopLoss p; HighestPrice := HighestPrice p;
     CurrentPrice := CurrentPrice p; StopLossType := StopLossType p;
     StopLossOrderID := v;
     StopLossHistory := StopLossHistory p; TakeProfit := TakeProfit p |}.

Definition set_StopLossHistory (v : list StopLossEvent) (p : Position)
  : Position :=
  {| Symbol := Symbol p; Side := Side p; EntryPrice := EntryPrice p;
     Quantity := Quantity p; InitialStopLoss := InitialStopLoss p;
     CurrentStopLoss := CurrentStopLoss p; HighestPrice := HighestPrice p;
     CurrentPrice := CurrentPrice p; StopLossType := StopLossType p;
     StopLossOrderID := StopLossOrderID p;
     StopLossHistory := v; TakeProfit := TakeProfit p |}.

Definition set_TakeProfit (v : option TakeProfitConfig) (p : Position)
  : Position :=
  {| Symbol := Symbol p; Side := Side p; EntryPrice := EntryPrice p;
     Quantity := Quantity p; InitialStopLoss := InitialStopLoss p;
     CurrentStopLoss := CurrentStopLoss p; HighestPrice := HighestPrice p;
     CurrentPrice := CurrentPrice p; StopLossType := StopLossType p;
     StopLossOrderID := StopLossOrderID p;
     StopLossHistory := StopLossHistory p; TakeProfit := v |}.

(** Modelled from the spec: [Position.AddStopLossEvent] appends one entry
    to the history. *)
Definition AddStopLossEvent (ex : Exchange) (oldStop newStop : Q)
  (reason trigger : string) (p : Position) : Position :=
  set_StopLossHistory
    (StopLossHistory p ++
     [{| OldStop := oldStop; NewStop := newStop; Reason := reason;
         Trigger := trigger; Timestamp := now ex |}]) p.

(** Modelled from the spec: [Position.UpdatePrice]. *)
Definition UpdatePrice (price : Q) (p : Position) : Position :=
  let p := set_CurrentPrice price p in
  if String.eqb (Side p) "long" then
    if Qgtb price (HighestPrice p) then set_HighestPrice price p else p
  else if String.eqb (Side p) "short" then
    if Qltb price (HighestPrice p) then set_HighestPrice price p else p
  else p.

(** Modelled from the spec: [Position.ShouldTriggerStopLoss]. *)
Definition ShouldTriggerStopLoss (p : Position) : bool :=
  if String.eqb (Side p) "long" then
    Qle_bool (CurrentPrice p) (CurrentStopLoss p)
  else if String.eqb (Side p) "short" then
    Qgeb (CurrentPrice p) (CurrentStopLoss p)
  else false.

(** ** stoploss_manager.go *)

(** The manager is its map from symbol to position.  Go stores pointers:
    a write through [pos] is a write to the entry the pointer was read
    from, which [store] spells out. *)
Record StopLossManager := {
  positions : gmap string Position
}.

Definition NewStopLossManager : StopLossManager := {| positions := ∅ |}.

Definition store (symbol : string) (pos : Position) (sm : StopLossManager)
  : StopLossManager :=
  {| positions := <[symbol := pos]> (positions sm) |}.

Definition RegisterPosition (pos : Position) (sm : StopLossManager)
  : StopLossManager :=
  let pos := set_HighestPrice (EntryPrice pos) pos in
  let pos := set_CurrentPrice (EntryPrice pos) pos in
  let pos := set_StopLossType "fixed" pos in
  store (Symbol pos) pos sm.

Definition RemovePosition (symbol : string) (sm : StopLossManager)
  : StopLossManager :=
  {| positions := delete symbol (positions sm) |}.

Definition GetPosition (sm : StopLossManager) (symbol : string)
  : option Position :=
  positions sm !! symbol.

(** The order goes out with the stop price printed with two decimals and
    the quantity with four. *)
Definition placeStopLossOrder (ex : Exchange) (pos : Position) (stopPrice : Q)
  : Position * list Request * option Error :=
  let orderSide :=
    if String.eqb (Side pos) "short" then SideTypeBuy else SideTypeSell in
  let binanceSymbol := GetBinanceSymbolFor (Symbol pos) in
  let printedPrice := sprintf_2f ex stopPrice in
  let printedQuantity := sprintf_4f ex (Quantity pos) in
  let req :=
    ReqCreateStopOrder binanceSymbol orderSide printedPrice printedQuantity in
  match createOrder ex binanceSymbol orderSide printedPrice printedQuantity with
  | inr err => (pos, [req], Some (ErrPlaceStop err))
  | inl orderID => (set_StopLossOrderID (pretty orderID) pos, [req], None)
  end.

Definition PlaceInitialStopLoss (ex : Exchange) (pos : Position)
  : Position * list Request * option Error :=
  placeStopLossOrder ex pos (InitialStopLoss pos).

Definition cancelStopLossOrder (ex : Exchange) (pos : Position)
  : Position * list Request * option Error :=
  if String.eqb (StopLossOrderID pos) "" then (pos, [], None)
  else
    let binanceSymbol := GetBinanceSymbolFor (Symbol pos) in
    let req := ReqCancelOrder binanceSymbol (StopLossOrderID pos) in
    match cancelOrder ex binanceSymbol (StopLossOrderID pos) with
    | Some err => (pos, [req], Some (ErrCancelStop err))
    | None => (set_StopLossOrderID "" pos, [req], None)
    end.

Definition UpdateStopLoss (ex : Exchange) (sm : StopLossManager)
  (symbol : string) (newStopLoss : Q) (reason : string)
  : StopLossManager * list Request * option Error :=
  match positions sm !! symbol with
  | None => (sm, [], Some (ErrPositionNotFound symbol))
  | Some pos =>
      let oldStop := CurrentStopLoss pos in
      if String.eqb (Side pos) "long" && Qltb newStopLoss oldStop then
        (sm, [], Some ErrLongOnlyUp)
      else if String.eqb (Side pos) "short" && Qgtb newStopLoss oldStop then
        (sm, [], Some ErrShortOnlyDown)
      else
        (* Record history *)
        let pos := AddStopLossEvent ex oldStop newStopLoss reason "llm" pos in
        (* Cancel old stop-loss order if exists; a failure is only logged *)
        let '(pos, sent1, _) :=
          if negb (String.eqb (StopLossOrderID pos) "")
          then cancelStopLossOrder ex pos
          else (pos, [], None) in
        (* Place new stop-loss order *)
        match placeStopLossOrder ex pos newStopLoss with
        | (pos, sent2, Some err) =>
            (store symbol pos sm, sent1 ++ sent2, Some (ErrWrap err))
        | (pos, sent2, None) =>
            let pos := set_CurrentStopLoss newStopLoss pos in
            (store symbol pos sm, sent1 ++ sent2, None)
        end
  end.

Definition executeStopLoss (ex : Exchange) (sm : StopLossManager)
  (pos : Position) : StopLossManager * list Request * option Error :=
  let action :=
    if String.eqb (Side pos) "short" then ActionCloseShort
    else ActionCloseLong in
  let result := executeTrade ex (Symbol pos) action (Quantity pos) in
  let req := ReqExecuteTrade (Symbol pos) action (Quantity pos) in
  if Success result then (RemovePosition (Symbol pos) sm, [req], None)
  else (sm, [req], Some (ErrStopLossClose (Message result))).

Definition UpdatePosition (ex : Exchange) (sm : StopLossManager)
  (symbol : string) (currentPrice : Q)
  : StopLossManager * list Request * option Error :=
  match positions sm !! symbol with
  | None => (sm, [], None)
  | Some pos =>
      (* Update price *)
      let pos := UpdatePrice currentPrice pos in
      let sm := store symbol pos sm in
      if ShouldTriggerStopLoss pos then executeStopLoss ex sm pos
      else (sm, [], None)
  end.

(** ** takeprofit_manager.go *)

Definition set_TargetPrice (v : Q) (l : TakeProfitLevel) : TakeProfitLevel :=
  {| Level := Level l; RiskRewardRatio := RiskRewardRatio l;
     Percentage := Percentage l; TargetPrice := v; Executed := Executed l;
     ExecutedTime := ExecutedTime l; ExecutedPrice := ExecutedPrice l;
     NewStopLoss := NewStopLoss l |}.

Definition set_NewStopLoss (v : Q) (l : TakeProfitLevel) : TakeProfitLevel :=
  {| Level := Level l; RiskRewardRatio := RiskRewardRatio l;
     Percentage := Percentage l; TargetPrice := TargetPrice l;
     Executed := Executed l; ExecutedTime := ExecutedTime l;
     ExecutedPrice := ExecutedPrice l; NewStopLoss := v |}.

(** [level.Executed = true; level.ExecutedTime = &now;
    level.ExecutedPrice = result.Price] *)
Definition markExecuted (time : Z) (price : Q) (l : TakeProfitLevel)
  : TakeProfitLevel :=
  {| Level := Level l; RiskRewardRatio := RiskRewardRatio l;
     Percentage := Percentage l; TargetPrice := TargetPrice l;
     Executed := true; ExecutedTime := Some time;
     ExecutedPrice := price; NewStopLoss := NewStopLoss l |}.

Definition newLevel (level : Z) (ratio percentage : Q) : TakeProfitLevel :=
  {| Level := level; RiskRewardRatio := ratio; Percentage := percentage;
     TargetPrice := 0; Executed := false; ExecutedTime := None;
     ExecutedPrice := 0; NewStopLoss := 0 |}.

(** The zero value read through an index that holds nothing. *)
Definition zeroLevel : TakeProfitLevel := newLevel 0 0 0.

Definition defaultLevels : list TakeProfitLevel :=
  [ newLevel 1 1.0 0.30; newLevel 2 2.0 0.30; newLevel 3 3.0 0.40 ].

(** One turn of the loop of [InitializeTakeProfitLevels] on the rung at
    index [i].  The slice holds pointers, so [levels[0].TargetPrice] read
    in a later turn is the value an earlier turn wrote. *)
Definition initLevel (pos : Position) (riskDistance : Q)
  (levels : list TakeProfitLevel) (i : nat) : list TakeProfitLevel :=
  match levels !! i with
  | None => levels
  | Some level =>
      let target :=
        if String.eqb (Side pos) "long"
        then EntryPrice pos + (riskDistance * RiskRewardRatio level)
        else EntryPrice pos - (riskDistance * RiskRewardRatio level) in
      let levels := <[i := set_TargetPrice target level]> levels in
      let level := set_TargetPrice target level in
      let newStop :=
        match Level level with
        | 1%Z => EntryPrice pos
        | 2%Z => TargetPrice (default zeroLevel (levels !! 0%nat))
        | 3%Z => TargetPrice (default zeroLevel (levels !! 1%nat))
        | _ => NewStopLoss level
        end in
      <[i := set_NewStopLoss newStop level]> levels
  end.

Definition InitializeTakeProfitLevels (pos : Position) : Position :=
  let riskDistance := Qabs (EntryPrice pos - InitialStopLoss pos) in
  let levels :=
    foldl (initLevel pos riskDistance) defaultLevels
          (seq 0 (List.length defaultLevels)) in
  set_TakeProfit (Some {| Enabled := true; Levels := levels |}) pos.

(** The loop of [MonitorAndExecute] from the rung at index [i] on.
    [continue] is the recursive call; [break] and both [return]s end it.
    The position is written only in the turn that ends the loop. *)
Fixpoint monitorLevels (ex : Exchange) (pos : Position)
  (config : TakeProfitConfig) (currentPrice : Q) (executedCount : nat)
  (i : nat) (rest : list TakeProfitLevel)
  : Position * list Request * nat * option Error :=
  match rest with
  | [] => (pos, [], executedCount, None)
  | level :: rest =>
      if Executed level then
        monitorLevels ex pos config currentPrice executedCount (S i) rest
      else
        let targetReached :=
          if String.eqb (Side pos) "long"
          then Qgeb currentPrice (TargetPrice level)
          else Qle_bool currentPrice (TargetPrice level) in
        if negb targetReached then
          monitorLevels ex pos config currentPrice executedCount (S i) rest
        else
          let closeQuantity := Quantity pos * Percentage level in
          let action :=
            if String.eqb (Side pos) "short" then ActionCloseShort
            else ActionCloseLong in
          let result := executeTrade ex (Symbol pos) action closeQuantity in
          let req := ReqExecuteTrade (Symbol pos) action closeQuantity in
          if negb (Success result) then
            (pos, [req], executedCount, Some (ErrTakeProfit (Message result)))
          else
            let level := markExecuted (now ex) (Price result) level in
            let config :=
              {| Enabled := Enabled config;
                 Levels := <[i := level]> (Levels config) |} in
            let pos := set_TakeProfit (Some config) pos in
            let pos := set_Quantity (Quantity pos - closeQuantity) pos in
            let executedCount := S executedCount in
            let allExecuted := forallb Executed (Levels config) in
            if allExecuted then (pos, [req], executedCount, None)
            else (pos, [req], executedCount, None)
  end.

Definition MonitorAndExecute (ex : Exchange) (pos : Position)
  (currentPrice : Q) : Position * list Request * nat * option Error :=
  match TakeProfit pos with
  | None => (pos, [], 0%nat, None)
  | Some config =>
      if negb (Enabled config) then (pos, [], 0%nat, None)
      else monitorLevels ex pos config currentPrice 0 0 (Levels config)
  end.

(** The loop of [GetMinimumStopLoss]: [last] is [lastExecutedLevel]; the
    scan stops at the first rung that has not executed. *)
Fixpoint scanExecuted (last : option TakeProfitLevel)
  (levels : list TakeProfitLevel) : option TakeProfitLevel :=
  match levels with
  | [] => last
  | level :: levels =>
      if Executed level then scanExecuted (Some level) levels else last
  end.

Definition GetMinimumStopLoss (pos : Position) : Q * bool :=
  match TakeProfit pos with
  | None => (0, false)
  | Some config =>
      if negb (Enabled config) then (0, false)
      else
        match scanExecuted None (Levels config) with
        | None => (0, false)
        | Some level => (NewStopLoss level, true)
        end
  end.

(** ** More of the three files and of the configuration *)

(** [Config.GetAllBinanceSymbols], on the field [CryptoSymbols] it reads. *)
Definition GetAllBinanceSymbols (cryptoSymbols : list string) : list string :=
  map remove_slashes cryptoSymbols.

(** [StopLossManager.GetAllPositions]: the positions of the map.  Go
    ranges over a map in an order it does not fix; the list here is in the
    order of [map_to_list], and nothing below depends on it. *)
Definition GetAllPositions (sm : StopLossManager) : list Position :=
  (map_to_list (positions sm)).*2.

(** The price service of the exchange: the symbols' prices, each already
    read by [parseFloat] (a number, or the error of the parse), or the
    error of the call. *)
Record PriceFeed := {
  listPrices : string -> list (Q + string) + string
}.

Inductive PriceError :=
| ErrGetPrice (cause : string)      (* "获取价格失败: %w" *)
| ErrNoPriceData                    (* "未获取到价格数据" *)
| ErrParsePrice (cause : string).   (* "解析价格失败: %w" *)

Definition getCurrentPrice (feed : PriceFeed) (symbol : string)
  : Q + PriceError :=
  let binanceSymbol := GetBinanceSymbolFor symbol in
  match listPrices feed binanceSymbol with
  | inr err => inr (ErrGetPrice err)
  | inl [] => inr ErrNoPriceData
  | inl (first :: _) =>
      match first with
      | inr err => inr (ErrParsePrice err)
      | inl price => inl price
      end
  end.

(** One turn of the loop of [MonitorPositions] on a position of the
    snapshot: a price that cannot be fetched skips the position, an error
    of [UpdatePosition] is only logged. *)
Definition monitorPosition (ex : Exchange) (feed : PriceFeed)
  (acc : StopLossManager * list Request) (pos : Position)
  : StopLossManager * list Request :=
  let '(sm, sent) := acc in
  match getCurrentPrice feed (Symbol pos) with
  | inr _ => (sm, sent)
  | inl currentPrice =>
      let '(sm, sent', _) := UpdatePosition ex sm (Symbol pos) currentPrice in
      (sm, sent ++ sent')
  end.

(** The branch [case <-ticker.C] of [MonitorPositions]: a snapshot of the
    positions, then one turn for each of them.  The timer and the
    cancellation of the loop are not part of the model. *)
Definition monitorTick (ex : Exchange) (feed : PriceFeed)
  (sm : StopLossManager) : StopLossManager * list Request :=
  foldl (monitorPosition ex feed) (sm, []) (GetAllPositions sm).

(** * Properties *)

(** ** The tests of the calculator

    Cases of [TestGetConfig], [TestIsValidUpdate],
    [TestValidateStopDistance] and [TestTrailingStopScenario], run on the
    embedding. *)

Example test_GetConfig_slash :
  Calculator.GetConfig Calculator.NewTrailingStopCalculator "BTC/USDT"
  = Calculator.mkConfig 6.0.
Proof. vm_compute. reflexivity. Qed.

Example test_GetConfig_lower_case :
  Calculator.GetConfig Calculator.NewTrailingStopCalculator "sol/usdt"
  = Calculator.mkConfig 8.0.
Proof. vm_compute. reflexivity. Qed.

Example test_GetConfig_unknown :
  Calculator.GetConfig Calculator.NewTrailingStopCalculator "XYZUSDT"
  = Calculator.mkConfig 5.0.
Proof. vm_compute. reflexivity. Qed.

Example test_IsValidUpdate :
  Calculator.IsValidUpdate "long" 48000 49000 = true
  /\ Calculator.IsValidUpdate "long" 49000 48000 = false
  /\ Calculator.IsValidUpdate "short" 52000 51000 = true
  /\ Calculator.IsValidUpdate "short" 51000 52000 = false
  /\ Calculator.IsValidUpdate "long" 50000 50000 = false.
Proof. vm_compute. repeat split. Qed.

Example test_ValidateStopDistance :
  let calc := Calculator.NewTrailingStopCalculator in
  Calculator.ValidateStopDistance calc "BTCUSDT" 50000 49000 "long" = true
  /\ Calculator.ValidateStopDistance calc "BTCUSDT" 50000 49850 "long" = false
  /\ Calculator.ValidateStopDistance calc "BTCUSDT" 50000 46500 "long" = false
  /\ Calculator.ValidateStopDistance calc "ETHUSDT" 3000 3090 "short" = true
  /\ Calculator.ValidateStopDistance calc "SOLUSDT" 100 95 "long" = true.
Proof. vm_compute. repeat split. Qed.

Example test_TrailingStopScenario :
  let calc := Calculator.NewTrailingStopCalculator in
  let initialStop := Calculator.CalculateInitialStop calc "BTCUSDT" 50000 500 "long" in
  let trailingStop1 := Calculator.CalculateTrailingStop calc "BTCUSDT" 52000 500 "long" in
  let trailingStop2 := Calculator.CalculateTrailingStop calc "BTCUSDT" 53000 500 "long" in
  initialStop == 48750
  /\ trailingStop1 == 50750
  /\ Calculator.IsValidUpdate "long" initialStop trailingStop1 = true
  /\ Calculator.ShouldUpdate calc "BTCUSDT" initialStop trailingStop1 = true
  /\ trailingStop2 == 51750
  /\ Calculator.IsValidUpdate "long" trailingStop1 trailingStop2 = true
  /\ Calculator.IsValidUpdate "long" trailingStop2 trailingStop1 = false.
Proof. vm_compute. repeat split. Qed.

(** ** The stop formulas *)

Section Formulas.
Import Calculator.
Variable calc : TrailingStopCalculator.
Variable symbol : string.

Lemma CalculateInitialStop_long entryPrice atr :
  CalculateInitialStop calc symbol entryPrice atr "long"
  = entryPrice - InitialATRMultiplier (GetConfig calc symbol) * atr.
Proof. reflexivity. Qed.

Lemma CalculateInitialStop_short entryPrice atr :
  CalculateInitialStop calc symbol entryPrice atr "short"
  = entryPrice + InitialATRMultiplier (GetConfig calc symbol) * atr.
Proof. reflexivity. Qed.

Lemma CalculateTrailingStop_long extremePrice atr :
  CalculateTrailingStop calc symbol extremePrice atr "long"
  = extremePrice - TrailingATRMultiplier (GetConfig calc symbol) * atr.
Proof. reflexivity. Qed.

Lemma CalculateTrailingStop_short extremePrice atr :
  CalculateTrailingStop calc symbol extremePrice atr "short"
  = extremePrice + TrailingATRMultiplier (GetConfig calc symbol) * atr.
Proof. reflexivity. Qed.
End Formulas.

(** C7. For every entry price, extreme price, ATR and parameter set of the
    symbol, the initial stop is [entryPrice - initialATRMultiplier * atr]
    for long and [entryPrice + initialATRMultiplier * atr] for short, the
    trailing stop is [extremePrice - trailingATRMultiplier * atr] for long
    and [extremePrice + trailingATRMultiplier * atr] for short; with entry
    50000, ATR 500 and multiplier 2.5 the initial stop is 48750 for long
    and 51250 for short. *)
Theorem stop_formulas (calc : Calculator.TrailingStopCalculator)
    (symbol : string) (entryPrice extremePrice atr : Q) :
  let params := Calculator.GetConfig calc symbol in
  Calculator.CalculateInitialStop calc symbol entryPrice atr "long"
    == entryPrice - Calculator.InitialATRMultiplier params * atr
  /\ Calculator.CalculateInitialStop calc symbol entryPrice atr "short"
    == entryPrice + Calculator.InitialATRMultiplier params * atr
  /\ Calculator.CalculateTrailingStop calc symbol extremePrice atr "long"
    == extremePrice - Calculator.TrailingATRMultiplier params * atr
  /\ Calculator.CalculateTrailingStop calc symbol extremePrice atr "short"
    == extremePrice + Calculator.TrailingATRMultiplier params * atr
  /\ (Calculator.InitialATRMultiplier params == 2.5 ->
      Calculator.CalculateInitialStop calc symbol 50000 500 "long" == 48750
      /\ Calculator.CalculateInitialStop calc symbol 50000 500 "short" == 51250).
Proof.
  intros params.
  rewrite CalculateInitialStop_long, CalculateInitialStop_short,
    CalculateTrailingStop_long, CalculateTrailingStop_short.
  fold params.
  do 4 (split; [reflexivity |]).
  intros Hm. split.
  - transitivity (50000 - 2.5 * 500); [| reflexivity].
    apply Qplus_comp; [reflexivity |].
    apply Qopp_comp, Qmult_comp; [exact Hm | reflexivity].
  - transitivity (50000 + 2.5 * 500); [| reflexivity].
    apply Qplus_comp; [reflexivity |].
    apply Qmult_comp; [exact Hm | reflexivity].
Qed.

Lemma stop_formulas_witness :
  Calculator.CalculateInitialStop Calculator.NewTrailingStopCalculator
    "BTCUSDT" 50000 500 "long" == 48750
  /\ Calculator.CalculateInitialStop Calculator.NewTrailingStopCalculator
    "BTCUSDT" 50000 500 "short" == 51250.
Proof.
  apply (stop_formulas Calculator.NewTrailingStopCalculator "BTCUSDT" 1 1 1).
  vm_compute. reflexivity.
Defined.

(** ** The stop-loss manager *)

(** What the direction check of [UpdateStopLoss] lets through. *)
Definition directionOk (pos : Position) (newStopLoss : Q) : Prop :=
  (Side pos = "long" -> CurrentStopLoss pos <= newStopLoss)
  /\ (Side pos = "short" -> newStopLoss <= CurrentStopLoss pos).

(** The fields no operation of the manager writes. *)
Definition sameStatic (p p' : Position) : Prop :=
  Symbol p' = Symbol p /\ Side p' = Side p /\ EntryPrice p' = EntryPrice p
  /\ InitialStopLoss p' = InitialStopLoss p /\ Quantity p' = Quantity p
  /\ TakeProfit p' = TakeProfit p.

Definition stopEvent (ex : Exchange) (pos : Position) (newStopLoss : Q)
  (reason : string) : StopLossEvent :=
  {| OldStop := CurrentStopLoss pos; NewStop := newStopLoss;
     Reason := reason; Trigger := "llm"; Timestamp := now ex |}.

(** The side of the order that protects a position. *)
Definition stopOrderSide (pos : Position) : SideType :=
  if String.eqb (Side pos) "short" then SideTypeBuy else SideTypeSell.

(** The stop order of a position at a price, as it goes out. *)
Definition stopOrderRequest (ex : Exchange) (pos : Position) (stopPrice : Q)
  : Request :=
  ReqCreateStopOrder (GetBinanceSymbolFor (Symbol pos)) (stopOrderSide pos)
    (sprintf_2f ex stopPrice) (sprintf_4f ex (Quantity pos)).

(** The answer of the exchange to that order. *)
Definition stopOrderAnswer (ex : Exchange) (pos : Position) (stopPrice : Q)
  : Z + string :=
  createOrder ex (GetBinanceSymbolFor (Symbol pos)) (stopOrderSide pos)
    (sprintf_2f ex stopPrice) (sprintf_4f ex (Quantity pos)).

Lemma sameStatic_refl p : sameStatic p p.
Proof. by repeat split. Qed.

Lemma lookup_store s k pos sm :
  positions (store k pos sm) !! s
  = if decide (k = s) then Some pos else positions sm !! s.
Proof. unfold store; simpl. apply lookup_insert. Qed.

Lemma direction_checks_pass pos newStopLoss :
  directionOk pos newStopLoss ->
  String.eqb (Side pos) "long" && Qltb newStopLoss (CurrentStopLoss pos) = false
  /\ String.eqb (Side pos) "short" && Qgtb newStopLoss (CurrentStopLoss pos) = false.
Proof.
  intros [Hl Hs]. split.
  - destruct (String.eqb_spec (Side pos) "long"); simpl; [| done].
    apply Qltb_ge; auto.
  - destruct (String.eqb_spec (Side pos) "short"); simpl; [| done].
    apply Qgtb_le; auto.
Qed.

Lemma direction_checks_pass_inv pos newStopLoss :
  String.eqb (Side pos) "long" && Qltb newStopLoss (CurrentStopLoss pos) = false ->
  String.eqb (Side pos) "short" && Qgtb newStopLoss (CurrentStopLoss pos) = false ->
  directionOk pos newStopLoss.
Proof.
  intros H1 H2. split; intros Hside; rewrite Hside in *; simpl in *.
  - by apply Qltb_ge.
  - by apply Qgtb_le.
Qed.

(** An update that passes the direction check: the history grows by one
    entry, the replacement order is requested last, and the stop is
    committed exactly when the exchange accepts the order. *)
Lemma UpdateStopLoss_passed ex sm symbol pos newStopLoss reason :
  positions sm !! symbol = Some pos ->
  directionOk pos newStopLoss ->
  exists pos' pre,
    sameStatic pos pos'
    /\ StopLossHistory pos'
       = StopLossHistory pos ++ [stopEvent ex pos newStopLoss reason]
    /\ match stopOrderAnswer ex pos newStopLoss with
       | inl _ =>
           UpdateStopLoss ex sm symbol newStopLoss reason
           = (store symbol pos' sm,
              pre ++ [stopOrderRequest ex pos newStopLoss], None)
           /\ CurrentStopLoss pos' = newStopLoss
       | inr cause =>
           UpdateStopLoss ex sm symbol newStopLoss reason
           = (store symbol pos' sm,
              pre ++ [stopOrderRequest ex pos newStopLoss],
              Some (ErrWrap (ErrPlaceStop cause)))
           /\ CurrentStopLoss pos' = CurrentStopLoss pos
       end.
Proof.
  intros Hpos Hdir.
  destruct (direction_checks_pass _ _ Hdir) as [Hl Hs].
  unfold UpdateStopLoss. rewrite Hpos; cbv zeta. rewrite Hl, Hs.
  unfold cancelStopLossOrder, placeStopLossOrder, stopOrderRequest,
    stopOrderAnswer, stopOrderSide, AddStopLossEvent.
  destruct pos as [sym side entry qty isl csl hp cp slt oid hist tp].
  cbn [Symbol Side EntryPrice Quantity InitialStopLoss CurrentStopLoss
       HighestPrice CurrentPrice StopLossType StopLossOrderID
       StopLossHistory TakeProfit set_StopLossHistory set_StopLossOrderID
       set_CurrentStopLoss] in *.
  destruct (String.eqb oid ""); cbn [negb];
    [| destruct (cancelOrder ex (GetBinanceSymbolFor sym) oid)];
    cbn [Symbol Side EntryPrice Quantity InitialStopLoss CurrentStopLoss
         HighestPrice CurrentPrice StopLossType StopLossOrderID
         StopLossHistory TakeProfit set_StopLossHistory set_StopLossOrderID
         set_CurrentStopLoss];
    destruct (createOrder ex (GetBinanceSymbolFor sym)
                (if String.eqb side "short" then SideTypeBuy else SideTypeSell)
                (sprintf_2f ex newStopLoss) (sprintf_4f ex qty));
    eexists; eexists; (split; [| split; [| split]]);
    try reflexivity; try (repeat split; reflexivity).
Qed.

Lemma UpdateStopLoss_long_down ex sm symbol pos newStopLoss reason :
  positions sm !! symbol = Some pos ->
  Side pos = "long" -> newStopLoss < CurrentStopLoss pos ->
  UpdateStopLoss ex sm symbol newStopLoss reason = (sm, [], Some ErrLongOnlyUp).
Proof.
  intros Hpos Hside Hlt. unfold UpdateStopLoss. rewrite Hpos; cbv zeta.
  rewrite Hside. apply Qltb_lt in Hlt. by rewrite Hlt.
Qed.

Lemma UpdateStopLoss_short_up ex sm symbol pos newStopLoss reason :
  positions sm !! symbol = Some pos ->
  Side pos = "short" -> CurrentStopLoss pos < newStopLoss ->
  UpdateStopLoss ex sm symbol newStopLoss reason = (sm, [], Some ErrShortOnlyDown).
Proof.
  intros Hpos Hside Hlt. unfold UpdateStopLoss. rewrite Hpos; cbv zeta.
  rewrite Hside. apply Qgtb_gt in Hlt. by rewrite Hlt.
Qed.

(** Every outcome of [UpdateStopLoss] on a registered position: the
    manager is untouched, or the entry of the symbol is rewritten with a
    position whose stop has not moved against its side. *)
Lemma UpdateStopLoss_manager ex sm symbol pos newStopLoss reason :
  positions sm !! symbol = Some pos ->
  (UpdateStopLoss ex sm symbol newStopLoss reason).1.1 = sm
  \/ exists pos',
       (UpdateStopLoss ex sm symbol newStopLoss reason).1.1
       = store symbol pos' sm
       /\ sameStatic pos pos'
       /\ directionOk pos (CurrentStopLoss pos').
Proof.
  intros Hpos.
  destruct (String.eqb (Side pos) "long"
            && Qltb newStopLoss (CurrentStopLoss pos)) eqn:Hl.
  { left. unfold UpdateStopLoss. rewrite Hpos; cbv zeta. by rewrite Hl. }
  destruct (String.eqb (Side pos) "short"
            && Qgtb newStopLoss (CurrentStopLoss pos)) eqn:Hs.
  { left. unfold UpdateStopLoss. rewrite Hpos; cbv zeta. by rewrite Hl, Hs. }
  right.
  pose proof (direction_checks_pass_inv _ _ Hl Hs) as Hdir.
  destruct (UpdateStopLoss_passed ex sm symbol pos newStopLoss reason Hpos Hdir)
    as (pos' & pre & Hst & _ & Hres).
  exists pos'.
  destruct (stopOrderAnswer _ _ _); destruct Hres as [-> Hc];
    (split; [done | split; [done |]]); rewrite Hc; [done |].
  split; intros _; apply Qle_refl.
Qed.

Lemma UpdatePrice_static price pos :
  sameStatic pos (UpdatePrice price pos)
  /\ CurrentStopLoss (UpdatePrice price pos) = CurrentStopLoss pos.
Proof.
  unfold UpdatePrice, sameStatic.
  destruct pos as [sym side entry qty isl csl hp cp slt oid hist tp].
  cbn [Symbol Side EntryPrice Quantity InitialStopLoss CurrentStopLoss
       HighestPrice CurrentPrice StopLossType StopLossOrderID
       StopLossHistory TakeProfit set_CurrentPrice].
  destruct (String.eqb side "long"), (String.eqb side "short"),
    (Qgtb price hp), (Qltb price hp); done.
Qed.

(** Every outcome of a price tick on a registered position. *)
Lemma UpdatePosition_manager ex sm symbol pos currentPrice :
  positions sm !! symbol = Some pos ->
  let pos' := UpdatePrice currentPrice pos in
  (UpdatePosition ex sm symbol currentPrice).1.1 = store symbol pos' sm
  \/ (UpdatePosition ex sm symbol currentPrice).1.1
     = RemovePosition (Symbol pos') (store symbol pos' sm).
Proof.
  intros Hpos pos'. unfold UpdatePosition. rewrite Hpos; cbv zeta.
  fold pos'. destruct (ShouldTriggerStopLoss pos'); [| by left].
  unfold executeStopLoss.
  destruct (Success _); [by right | by left].
Qed.

(** *** Runs of the manager *)

Inductive Op :=
| OpUpdateStopLoss (ex : Exchange) (symbol : string) (newStopLoss : Q)
    (reason : string)
| OpUpdatePosition (ex : Exchange) (symbol : string) (currentPrice : Q).

Definition step (sm : StopLossManager) (op : Op) : StopLossManager :=
  match op with
  | OpUpdateStopLoss ex symbol newStopLoss reason =>
      (UpdateStopLoss ex sm symbol newStopLoss reason).1.1
  | OpUpdatePosition ex symbol currentPrice =>
      (UpdatePosition ex sm symbol currentPrice).1.1
  end.

(** The managers a run goes through, the first one included. *)
Fixpoint run (sm : StopLossManager) (ops : list Op) : list StopLossManager :=
  sm :: match ops with
        | [] => []
        | op :: ops => run (step sm op) ops
        end.

(** The values [CurrentStopLoss] of a symbol takes along a run, while the
    symbol is registered. *)
Definition stopHistory (symbol : string) (sm : StopLossManager)
  (ops : list Op) : list Q :=
  omap (fun m => CurrentStopLoss <$> positions m !! symbol) (run sm ops).

Lemma step_lookup sm op s pos pos' :
  positions sm !! s = Some pos ->
  positions (step sm op) !! s = Some pos' ->
  sameStatic pos pos' /\ directionOk pos (CurrentStopLoss pos').
Proof.
  assert (Hrefl : forall p, sameStatic p p /\ directionOk p (CurrentStopLoss p)).
  { intros p. split; [apply sameStatic_refl |].
    split; intros _; apply Qle_refl. }
  intros Hpos Hpos'. destruct op as [ex k newStop reason | ex k price]; simpl in Hpos'.
  - destruct (positions sm !! k) as [posk |] eqn:Hk.
    + destruct (UpdateStopLoss_manager ex sm k posk newStop reason Hk)
        as [Heq | (p' & Heq & Hst & Hdir)]; rewrite Heq in Hpos'.
      * rewrite Hpos in Hpos'. injection Hpos' as <-. apply Hrefl.
      * rewrite lookup_store in Hpos'. case_decide as Hks.
        -- subst k. rewrite Hpos in Hk. injection Hk as <-.
           injection Hpos' as <-. done.
        -- rewrite Hpos in Hpos'. injection Hpos' as <-. apply Hrefl.
    + unfold UpdateStopLoss in Hpos'. rewrite Hk in Hpos'. simpl in Hpos'.
      rewrite Hpos in Hpos'. injection Hpos' as <-. apply Hrefl.
  - destruct (positions sm !! k) as [posk |] eqn:Hk.
    + assert (Hin : positions (store k (UpdatePrice price posk) sm) !! s
                    = Some pos').
      { destruct (UpdatePosition_manager ex sm k posk price Hk) as [Heq | Heq];
          rewrite Heq in Hpos'; [done |].
        unfold RemovePosition in Hpos'; simpl in Hpos'.
        apply lookup_delete_Some in Hpos'. apply Hpos'. }
      rewrite lookup_store in Hin. case_decide as Hks.
      * subst k. rewrite Hpos in Hk. injection Hk as <-.
        injection Hin as <-.
        destruct (UpdatePrice_static price pos) as [Hst Hc].
        split; [done |]. rewrite Hc. split; intros _; apply Qle_refl.
      * rewrite Hpos in Hin. injection Hin as <-. apply Hrefl.
    + unfold UpdatePosition in Hpos'. rewrite Hk in Hpos'. simpl in Hpos'.
      rewrite Hpos in Hpos'. injection Hpos' as <-. apply Hrefl.
Qed.

Lemma step_absent sm op s :
  positions sm !! s = None -> positions (step sm op) !! s = None.
Proof.
  intros Hs. destruct op as [ex k newStop reason | ex k price]; simpl.
  - destruct (positions sm !! k) as [posk |] eqn:Hk.
    + destruct (UpdateStopLoss_manager ex sm k posk newStop reason Hk)
        as [Heq | (p' & Heq & _)]; rewrite Heq; [done |].
      rewrite lookup_store. case_decide; [congruence | done].
    + unfold UpdateStopLoss. by rewrite Hk.
  - destruct (positions sm !! k) as [posk |] eqn:Hk.
    + assert (Hin : positions (store k (UpdatePrice price posk) sm) !! s = None).
      { rewrite lookup_store. case_decide; [congruence | done]. }
      destruct (UpdatePosition_manager ex sm k posk price Hk) as [Heq | Heq];
        rewrite Heq; [done |].
      unfold RemovePosition; simpl. apply lookup_delete_None. by right.
    + unfold UpdatePosition. by rewrite Hk.
Qed.

Lemma stopHistory_absent s ops : forall sm,
  positions sm !! s = None -> stopHistory s sm ops = [].
Proof.
  induction ops as [| op ops IH]; intros sm Hs; unfold stopHistory; simpl;
    rewrite Hs; simpl; [done |].
  apply IH. by apply step_absent.
Qed.

Lemma stopHistory_cons s sm op ops pos :
  positions sm !! s = Some pos ->
  stopHistory s sm (op :: ops)
  = CurrentStopLoss pos :: stopHistory s (step sm op) ops.
Proof. intros Hs. unfold stopHistory; simpl. by rewrite Hs. Qed.

(** Along a run every later stop of a long position is at or above the
    present one, and the stops are sorted. *)
Lemma stopHistory_long s ops : forall sm pos,
  positions sm !! s = Some pos -> Side pos = "long" ->
  Forall (Qle (CurrentStopLoss pos)) (stopHistory s sm ops)
  /\ StronglySorted Qle (stopHistory s sm ops).
Proof.
  induction ops as [| op ops IH]; intros sm pos Hs Hside.
  - unfold stopHistory; simpl. rewrite Hs; simpl. split.
    + constructor; [apply Qle_refl | constructor].
    + repeat constructor.
  - rewrite (stopHistory_cons _ _ _ _ _ Hs).
    destruct (positions (step sm op) !! s) as [pos' |] eqn:Hs'.
    + destruct (step_lookup _ _ _ _ _ Hs Hs') as [Hst [Hup _]].
      specialize (Hup Hside).
      destruct (IH (step sm op) pos' Hs') as [Hall Hsorted].
      { destruct Hst as (_ & -> & _). done. }
      assert (Hall' : Forall (Qle (CurrentStopLoss pos))
                        (stopHistory s (step sm op) ops)).
      { eapply Forall_impl; [exact Hall |].
        intros q Hq. eapply Qle_trans; eauto. }
      split; constructor; auto. apply Qle_refl.
    + rewrite (stopHistory_absent _ _ _ Hs'). split.
      * constructor; [apply Qle_refl | constructor].
      * repeat constructor.
Qed.

Lemma stopHistory_short s ops : forall sm pos,
  positions sm !! s = Some pos -> Side pos = "short" ->
  Forall (fun q => q <= CurrentStopLoss pos) (stopHistory s sm ops)
  /\ StronglySorted (fun a b => b <= a) (stopHistory s sm ops).
Proof.
  induction ops as [| op ops IH]; intros sm pos Hs Hside.
  - unfold stopHistory; simpl. rewrite Hs; simpl. split.
    + constructor; [apply Qle_refl | constructor].
    + repeat constructor.
  - rewrite (stopHistory_cons _ _ _ _ _ Hs).
    destruct (positions (step sm op) !! s) as [pos' |] eqn:Hs'.
    + destruct (step_lookup _ _ _ _ _ Hs Hs') as [Hst [_ Hdown]].
      specialize (Hdown Hside).
      destruct (IH (step sm op) pos' Hs') as [Hall Hsorted].
      { destruct Hst as (_ & -> & _). done. }
      assert (Hall' : Forall (fun q => q <= CurrentStopLoss pos)
                        (stopHistory s (step sm op) ops)).
      { eapply Forall_impl; [exact Hall |].
        intros q Hq. simpl in *. eapply Qle_trans; eauto. }
      split; constructor; auto. apply Qle_refl.
    + rewrite (stopHistory_absent _ _ _ Hs'). split.
      * constructor; [apply Qle_refl | constructor].
      * repeat constructor.
Qed.

(** C3. For every registered position and every sequence of stop updates
    and price ticks, the values taken by [CurrentStopLoss] are sorted in
    the favorable direction: non-decreasing for a long position,
    non-increasing for a short one; no single operation moves the stop
    against that direction. *)
Theorem stop_loss_monotonic (sm : StopLossManager) (symbol : string)
    (pos : Position) (ops : list Op) :
  positions sm !! symbol = Some pos ->
  (Side pos = "long" -> Sorted Qle (stopHistory symbol sm ops))
  /\ (Side pos = "short" ->
      Sorted (fun a b => b <= a) (stopHistory symbol sm ops))
  /\ (forall op pos', positions (step sm op) !! symbol = Some pos' ->
      Side pos' = Side pos
      /\ (Side pos = "long" -> CurrentStopLoss pos <= CurrentStopLoss pos')
      /\ (Side pos = "short" -> CurrentStopLoss pos' <= CurrentStopLoss pos)).
Proof.
  intros Hs. split; [| split].
  - intros Hside. apply StronglySorted_Sorted.
    by apply (stopHistory_long symbol ops sm pos).
  - intros Hside. apply StronglySorted_Sorted.
    by apply (stopHistory_short symbol ops sm pos).
  - intros op pos' Hs'.
    destruct (step_lookup _ _ _ _ _ Hs Hs') as [(_ & Hside & _) [Hl Hsh]].
    done.
Qed.

(** *** Exchanges and positions used in the examples *)

(** The printer of the examples: the number rounded to [decimals]
    decimals, ties to even, in decimal notation.  For the numbers of the
    examples, which have no more decimals than are printed, this is what
    [fmt.Sprintf] gives. *)
Definition roundHalfEven (x : Q) : Z :=
  let n := Qfloor x in
  match Qcompare (x - inject_Z n) (1 # 2) with
  | Lt => n
  | Gt => (n + 1)%Z
  | Eq => if Z.even n then n else (n + 1)%Z
  end.

Fixpoint zeros (n : nat) : string :=
  match n with
  | O => ""
  | S n => String "0" (zeros n)
  end.

Definition printFixed (decimals : nat) (x : Q) : string :=
  let scale := (10 ^ Z.of_nat decimals)%Z in
  let n := roundHalfEven (Qabs x * inject_Z scale) in
  let fraction := pretty (n mod scale)%Z in
  ((if Qltb x 0 then "-" else "")
   +:+ pretty (n / scale)%Z +:+ "."
   +:+ zeros (decimals - String.length fraction) +:+ fraction).

(** An exchange that accepts every request. *)
Definition acceptingExchange : Exchange :=
  {| sprintf_2f := printFixed 2;
     sprintf_4f := printFixed 4;
     createOrder := fun _ _ _ _ => inl 1001%Z;
     cancelOrder := fun _ _ => None;
     executeTrade := fun _ _ _ =>
       {| Success := true; Price := 0; Message := "" |};
     now := 0 |}.

(** An exchange that refuses every request. *)
Definition refusingExchange : Exchange :=
  {| sprintf_2f := printFixed 2;
     sprintf_4f := printFixed 4;
     createOrder := fun _ _ _ _ => inr "rejected";
     cancelOrder := fun _ _ => Some "rejected";
     executeTrade := fun _ _ _ =>
       {| Success := false; Price := 0; Message := "rejected" |};
     now := 0 |}.

(** The long position of the scenario of the tests: entry 50000, initial
    stop 48750, quantity 1. *)
Definition btcLong : Position :=
  {| Symbol := "BTCUSDT"; Side := "long"; EntryPrice := 50000;
     Quantity := 1; InitialStopLoss := 48750; CurrentStopLoss := 48750;
     HighestPrice := 50000; CurrentPrice := 50000; StopLossType := "";
     StopLossOrderID := ""; StopLossHistory := []; TakeProfit := None |}.

Definition btcManager : StopLossManager :=
  RegisterPosition btcLong NewStopLossManager.

(** Discharges [directionOk] on a concrete long position. *)
Ltac long_direction :=
  split;
  [ intros _; apply Qle_bool_iff; reflexivity
  | intros Hside; vm_compute in Hside; discriminate Hside ].

Lemma stop_loss_monotonic_witness :
  Sorted Qle
    (stopHistory "BTCUSDT" btcManager
       [ OpUpdateStopLoss acceptingExchange "BTCUSDT" 50750 "trail";
         OpUpdatePosition acceptingExchange "BTCUSDT" 53000;
         OpUpdateStopLoss acceptingExchange "BTCUSDT" 49000 "lower";
         OpUpdateStopLoss refusingExchange "BTCUSDT" 51750 "trail" ]).
Proof.
  apply (stop_loss_monotonic btcManager "BTCUSDT"
           (set_StopLossType "fixed" btcLong)); [| reflexivity].
  vm_compute. reflexivity.
Defined.

(** C4 (amended). For every registered position, a proposal that moves
    the stop against the position (long: strictly below the old stop;
    short: strictly above it) is rejected with the directional error, the
    manager is unchanged and nothing is sent to the exchange.  A proposal
    equal to the old stop passes the check: its history entry is appended
    and the replacement order is requested. *)
Theorem unfavorable_update_rejected (ex : Exchange) (sm : StopLossManager)
    (symbol : string) (pos : Position) (newStopLoss : Q) (reason : string) :
  positions sm !! symbol = Some pos ->
  (Side pos = "long" -> newStopLoss < CurrentStopLoss pos ->
   UpdateStopLoss ex sm symbol newStopLoss reason
   = (sm, [], Some ErrLongOnlyUp))
  /\ (Side pos = "short" -> CurrentStopLoss pos < newStopLoss ->
      UpdateStopLoss ex sm symbol newStopLoss reason
      = (sm, [], Some ErrShortOnlyDown))
  /\ (newStopLoss == CurrentStopLoss pos ->
      exists pos' pre,
        positions (UpdateStopLoss ex sm symbol newStopLoss reason).1.1
          !! symbol = Some pos'
        /\ StopLossHistory pos'
           = StopLossHistory pos ++ [stopEvent ex pos newStopLoss reason]
        /\ (UpdateStopLoss ex sm symbol newStopLoss reason).1.2
           = pre ++ [stopOrderRequest ex pos newStopLoss]).
Proof.
  intros Hpos. split; [| split].
  - intros. by eapply UpdateStopLoss_long_down.
  - intros. by eapply UpdateStopLoss_short_up.
  - intros Heq.
    assert (Hdir : directionOk pos newStopLoss).
    { split; intros _; rewrite Heq; apply Qle_refl. }
    destruct (UpdateStopLoss_passed ex sm symbol pos newStopLoss reason
                Hpos Hdir) as (pos' & pre & _ & Hhist & Hres).
    exists pos', pre.
    destruct (stopOrderAnswer _ _ _); destruct Hres as [-> _]; simpl;
      (split; [rewrite lookup_insert_eq; reflexivity | done]).
Qed.

Lemma unfavorable_update_rejected_witness :
  UpdateStopLoss acceptingExchange btcManager "BTCUSDT" 48000 "lower"
  = (btcManager, [], Some ErrLongOnlyUp).
Proof.
  apply (unfavorable_update_rejected acceptingExchange btcManager "BTCUSDT"
           (set_StopLossType "fixed" btcLong) 48000 "lower").
  - vm_compute. reflexivity.
  - reflexivity.
  - reflexivity.
Defined.

(** The claim as stated fails when the proposal equals the old stop: the
    calculator calls the move invalid, yet [UpdateStopLoss] returns no
    error, appends a history entry and sends a replacement order. *)
Lemma equal_stop_is_accepted :
  let r := UpdateStopLoss acceptingExchange btcManager "BTCUSDT" 48750 "hold" in
  (CurrentStopLoss <$> positions btcManager !! "BTCUSDT") = Some 48750
  /\ Calculator.IsValidUpdate "long" 48750 48750 = false
  /\ r.2 = None
  /\ r.1.2 = [ReqCreateStopOrder "BTCUSDT" SideTypeSell "48750.00" "1.0000"]
  /\ (StopLossHistory <$> positions r.1.1 !! "BTCUSDT")
     = Some [{| OldStop := 48750; NewStop := 48750; Reason := "hold";
                Trigger := "llm"; Timestamp := 0 |}].
Proof. vm_compute. repeat split. Qed.

(** C5 (amended). Every proposal for a registered position that passes
    the direction check is forwarded to the exchange as a replacement
    order, at the proposed price printed with two decimals and for the
    quantity of the position printed with four, whatever its distance
    from the old stop: [UpdateStopLoss] applies no threshold. *)
Theorem update_forwarded_without_threshold (ex : Exchange)
    (sm : StopLossManager) (symbol : string) (pos : Position)
    (newStopLoss : Q) (reason : string) :
  positions sm !! symbol = Some pos ->
  directionOk pos newStopLoss ->
  exists pre,
    (UpdateStopLoss ex sm symbol newStopLoss reason).1.2
    = pre ++ [ReqCreateStopOrder (GetBinanceSymbolFor (Symbol pos))
                (if String.eqb (Side pos) "short" then SideTypeBuy
                 else SideTypeSell)
                (sprintf_2f ex newStopLoss)
                (sprintf_4f ex (Quantity pos))].
Proof.
  intros Hpos Hdir.
  destruct (UpdateStopLoss_passed ex sm symbol pos newStopLoss reason
              Hpos Hdir) as (pos' & pre & _ & _ & Hres).
  exists pre. destruct (stopOrderAnswer _ _ _); by destruct Hres as [-> _].
Qed.

Lemma update_forwarded_without_threshold_witness :
  exists pre,
    (UpdateStopLoss acceptingExchange btcManager "BTCUSDT" 48800 "trail").1.2
    = pre ++ [ReqCreateStopOrder "BTCUSDT" SideTypeSell "48800.00" "1.0000"].
Proof.
  apply (update_forwarded_without_threshold acceptingExchange btcManager
           "BTCUSDT" (set_StopLossType "fixed" btcLong) 48800 "trail").
  - vm_compute. reflexivity.
  - long_direction.
Defined.

(** The claim as stated fails on a favorable move below the threshold:
    from 48750 to 48800 the change is about 0.1 percent, under the 0.3
    percent of the symbol, and the replacement order is sent and the stop
    committed all the same. *)
Lemma sub_threshold_update_is_forwarded :
  let r := UpdateStopLoss acceptingExchange btcManager "BTCUSDT" 48800 "trail" in
  Calculator.ShouldUpdate Calculator.NewTrailingStopCalculator
    "BTCUSDT" 48750 48800 = false
  /\ Calculator.IsValidUpdate "long" 48750 48800 = true
  /\ r.2 = None
  /\ r.1.2 = [ReqCreateStopOrder "BTCUSDT" SideTypeSell "48800.00" "1.0000"]
  /\ (CurrentStopLoss <$> positions r.1.1 !! "BTCUSDT") = Some 48800.
Proof. vm_compute. repeat split. Qed.

(** C6 (amended). For a symbol with no registered position, a price tick
    is a no-op that returns no error; a stop-update request changes
    nothing and sends nothing either, but it returns the error
    "position does not exist". *)
Theorem unknown_symbol_handling (ex : Exchange) (sm : StopLossManager)
    (symbol : string) (newStopLoss currentPrice : Q) (reason : string) :
  positions sm !! symbol = None ->
  UpdatePosition ex sm symbol currentPrice = (sm, [], None)
  /\ UpdateStopLoss ex sm symbol newStopLoss reason
     = (sm, [], Some (ErrPositionNotFound symbol)).
Proof.
  intros Hnone. unfold UpdatePosition, UpdateStopLoss. by rewrite Hnone.
Qed.

Lemma unknown_symbol_handling_witness :
  UpdatePosition acceptingExchange btcManager "ETHUSDT" 3000
  = (btcManager, [], None)
  /\ UpdateStopLoss acceptingExchange btcManager "ETHUSDT" 2900 "trail"
     = (btcManager, [], Some (ErrPositionNotFound "ETHUSDT")).
Proof.
  apply (unknown_symbol_handling acceptingExchange btcManager "ETHUSDT").
  vm_compute. reflexivity.
Defined.

(** The claim as stated fails for the stop-update request: on a symbol
    that is not registered it returns an error. *)
Lemma update_of_unknown_symbol_is_an_error :
  positions btcManager !! "ETHUSDT" = None
  /\ (UpdateStopLoss acceptingExchange btcManager "ETHUSDT" 2900 "trail").2
     = Some (ErrPositionNotFound "ETHUSDT")
  /\ (UpdateStopLoss acceptingExchange btcManager "ETHUSDT" 2900 "trail").2
     <> None.
Proof. vm_compute. repeat split. discriminate. Qed.

(** C10. For every registered position, when a stop update passes the
    direction check and the exchange refuses the replacement order, the
    call returns an error and [CurrentStopLoss] keeps its value, yet the
    history already holds the entry of the attempted change. *)
Theorem failed_update_leaves_history_entry (ex : Exchange)
    (sm : StopLossManager) (symbol : string) (pos : Position)
    (newStopLoss : Q) (reason cause : string) :
  positions sm !! symbol = Some pos ->
  directionOk pos newStopLoss ->
  createOrder ex (GetBinanceSymbolFor (Symbol pos)) (stopOrderSide pos)
    (sprintf_2f ex newStopLoss) (sprintf_4f ex (Quantity pos)) = inr cause ->
  exists sm' sent pos',
    UpdateStopLoss ex sm symbol newStopLoss reason
    = (sm', sent, Some (ErrWrap (ErrPlaceStop cause)))
    /\ positions sm' !! symbol = Some pos'
    /\ CurrentStopLoss pos' = CurrentStopLoss pos
    /\ StopLossHistory pos'
       = StopLossHistory pos
         ++ [{| OldStop := CurrentStopLoss pos; NewStop := newStopLoss;
                Reason := reason; Trigger := "llm"; Timestamp := now ex |}].
Proof.
  intros Hpos Hdir Hfail.
  destruct (UpdateStopLoss_passed ex sm symbol pos newStopLoss reason
              Hpos Hdir) as (pos' & pre & _ & Hhist & Hres).
  unfold stopOrderAnswer in Hres.
  rewrite Hfail in Hres. destruct Hres as [Hres Hstop].
  exists (store symbol pos' sm), (pre ++ [stopOrderRequest ex pos newStopLoss]), pos'.
  split; [done |]. split; [| done].
  rewrite lookup_store. by rewrite decide_True.
Qed.

Lemma failed_update_leaves_history_entry_witness :
  exists sm' sent pos',
    UpdateStopLoss refusingExchange btcManager "BTCUSDT" 50750 "trail"
    = (sm', sent, Some (ErrWrap (ErrPlaceStop "rejected")))
    /\ positions sm' !! "BTCUSDT" = Some pos'
    /\ CurrentStopLoss pos' = 48750
    /\ StopLossHistory pos'
       = [{| OldStop := 48750; NewStop := 50750; Reason := "trail";
             Trigger := "llm"; Timestamp := 0 |}].
Proof.
  apply (failed_update_leaves_history_entry refusingExchange btcManager
           "BTCUSDT" (set_StopLossType "fixed" btcLong) 50750 "trail"
           "rejected").
  - vm_compute. reflexivity.
  - long_direction.
  - reflexivity.
Defined.

(** ** The take-profit ladder *)

Definition resultPosition (r : Position * list Request * nat * option Error)
  : Position := r.1.1.1.
Definition resultRequests (r : Position * list Request * nat * option Error)
  : list Request := r.1.1.2.
Definition resultCount (r : Position * list Request * nat * option Error)
  : nat := r.1.2.
Definition resultError (r : Position * list Request * nat * option Error)
  : option Error := r.2.

Definition levelsOf (pos : Position) : list TakeProfitLevel :=
  match TakeProfit pos with
  | Some config => Levels config
  | None => []
  end.

Definition executedFlags (pos : Position) : list bool :=
  map Executed (levelsOf pos).

(** The target of a rung, as [InitializeTakeProfitLevels] computes it. *)
Definition targetAt (side : string) (entry initialStop ratio : Q) : Q :=
  if String.eqb side "long"
  then entry + (Qabs (entry - initialStop) * ratio)
  else entry - (Qabs (entry - initialStop) * ratio).

Definition rung (n : Z) (ratio percentage target newStop : Q)
  (executed : bool) (time : option Z) (price : Q) : TakeProfitLevel :=
  {| Level := n; RiskRewardRatio := ratio; Percentage := percentage;
     TargetPrice := target; Executed := executed; ExecutedTime := time;
     ExecutedPrice := price; NewStopLoss := newStop |}.

(** The three rungs of a position, with the execution marks left open. *)
Definition ladderOf (side : string) (entry initialStop : Q)
  (e1 e2 e3 : bool) (t1 t2 t3 : option Z) (p1 p2 p3 : Q)
  : list TakeProfitLevel :=
  [ rung 1 1.0 0.30 (targetAt side entry initialStop 1.0) entry e1 t1 p1;
    rung 2 2.0 0.30 (targetAt side entry initialStop 2.0)
      (targetAt side entry initialStop 1.0) e2 t2 p2;
    rung 3 3.0 0.40 (targetAt side entry initialStop 3.0)
      (targetAt side entry initialStop 2.0) e3 t3 p3 ].

(** The ladder invariant: the rungs are those of the initialization and
    the executed ones form an initial segment. *)
Definition LadderInv (pos : Position) : Prop :=
  exists e1 e2 e3 t1 t2 t3 p1 p2 p3,
    TakeProfit pos
    = Some {| Enabled := true;
              Levels := ladderOf (Side pos) (EntryPrice pos)
                          (InitialStopLoss pos) e1 e2 e3 t1 t2 t3 p1 p2 p3 |}
    /\ (e2 = true -> e1 = true) /\ (e3 = true -> e2 = true).

Lemma InitializeTakeProfitLevels_ladder pos :
  TakeProfit (InitializeTakeProfitLevels pos)
  = Some {| Enabled := true;
            Levels := ladderOf (Side pos) (EntryPrice pos)
                        (InitialStopLoss pos) false false false
                        None None None 0 0 0 |}.
Proof. destruct pos. reflexivity. Qed.

Lemma InitializeTakeProfitLevels_static pos :
  Side (InitializeTakeProfitLevels pos) = Side pos
  /\ EntryPrice (InitializeTakeProfitLevels pos) = EntryPrice pos
  /\ InitialStopLoss (InitializeTakeProfitLevels pos) = InitialStopLoss pos.
Proof. destruct pos. by repeat split. Qed.

Lemma LadderInv_init pos : LadderInv (InitializeTakeProfitLevels pos).
Proof.
  destruct (InitializeTakeProfitLevels_static pos) as (Hs & He & Hi).
  unfold LadderInv. rewrite Hs, He, Hi, InitializeTakeProfitLevels_ladder.
  exists false, false, false, None, None, None, 0, 0, 0. done.
Qed.

(** The targets are ordered along the ladder in the direction of the
    side, so a price that misses a rung misses the later ones. *)
Lemma targets_long side entry initialStop :
  String.eqb side "long" = true ->
  targetAt side entry initialStop 1.0 <= targetAt side entry initialStop 2.0
  /\ targetAt side entry initialStop 2.0 <= targetAt side entry initialStop 3.0.
Proof.
  intros Hside. unfold targetAt. rewrite Hside.
  pose proof (Qabs_nonneg (entry - initialStop)) as Hrd.
  split; lra.
Qed.

Lemma targets_not_long side entry initialStop :
  String.eqb side "long" = false ->
  targetAt side entry initialStop 2.0 <= targetAt side entry initialStop 1.0
  /\ targetAt side entry initialStop 3.0 <= targetAt side entry initialStop 2.0.
Proof.
  intros Hside. unfold targetAt. rewrite Hside.
  pose proof (Qabs_nonneg (entry - initialStop)) as Hrd.
  split; lra.
Qed.

(** The test of the loop of [MonitorAndExecute]. *)
Definition targetReached (side : string) (currentPrice target : Q) : bool :=
  if String.eqb side "long" then Qgeb currentPrice target
  else Qle_bool currentPrice target.

(** The turn of the loop that reaches the exchange: a partial close of
    [Quantity pos * Percentage level], then the marks on success. *)
Definition executeRung (ex : Exchange) (pos : Position)
  (config : TakeProfitConfig) (executedCount i : nat)
  (level : TakeProfitLevel) : Position * list Request * nat * option Error :=
  let closeQuantity := Quantity pos * Percentage level in
  let action :=
    if String.eqb (Side pos) "short" then ActionCloseShort
    else ActionCloseLong in
  let result := executeTrade ex (Symbol pos) action closeQuantity in
  let req := ReqExecuteTrade (Symbol pos) action closeQuantity in
  if Success result then
    (set_Quantity (Quantity pos - closeQuantity)
       (set_TakeProfit
          (Some {| Enabled := Enabled config;
                   Levels := <[i := markExecuted (now ex) (Price result) level]>
                               (Levels config) |}) pos),
     [req], S executedCount, None)
  else (pos, [req], executedCount, Some (ErrTakeProfit (Message result))).

Lemma monitorLevels_skip ex pos config price count i level rest :
  Executed level = true
  \/ targetReached (Side pos) price (TargetPrice level) = false ->
  monitorLevels ex pos config price count i (level :: rest)
  = monitorLevels ex pos config price count (S i) rest.
Proof.
  intros H. cbn [monitorLevels]. destruct (Executed level); [done |].
  destruct H as [H | H]; [done |].
  unfold targetReached in H. by rewrite H.
Qed.

Lemma monitorLevels_hit ex pos config price count i level rest :
  Executed level = false ->
  targetReached (Side pos) price (TargetPrice level) = true ->
  monitorLevels ex pos config price count i (level :: rest)
  = executeRung ex pos config count i level.
Proof.
  intros He Hr. cbn [monitorLevels]. rewrite He.
  unfold targetReached in Hr. rewrite Hr. cbn [negb].
  unfold executeRung. destruct (Success _); cbn [negb]; [| done].
  destruct pos; cbn. by destruct (forallb _ _).
Qed.

Lemma monitorLevels_nil ex pos config price count i :
  monitorLevels ex pos config price count i [] = (pos, [], count, None).
Proof. done. Qed.

Lemma targetReached_earlier side entry initialStop price :
  (targetReached side price (targetAt side entry initialStop 2.0) = true ->
   targetReached side price (targetAt side entry initialStop 1.0) = true)
  /\ (targetReached side price (targetAt side entry initialStop 3.0) = true ->
      targetReached side price (targetAt side entry initialStop 2.0) = true).
Proof.
  unfold targetReached. destruct (String.eqb side "long") eqn:Hside.
  - destruct (targets_long side entry initialStop Hside) as [H12 H23].
    rewrite !Qgeb_ge. split; intros H; eapply Qle_trans; eauto.
  - destruct (targets_not_long side entry initialStop Hside) as [H21 H32].
    rewrite !Qle_bool_iff. split; intros H; eapply Qle_trans; eauto.
Qed.

Lemma targetReached_later_false side entry initialStop price :
  (targetReached side price (targetAt side entry initialStop 1.0) = false ->
   targetReached side price (targetAt side entry initialStop 2.0) = false)
  /\ (targetReached side price (targetAt side entry initialStop 2.0) = false ->
      targetReached side price (targetAt side entry initialStop 3.0) = false).
Proof.
  destruct (targetReached_earlier side entry initialStop price) as [H21 H32].
  split; intros H.
  - destruct (targetReached side price (targetAt side entry initialStop 2.0));
      [| done]. rewrite H21 in H; done.
  - destruct (targetReached side price (targetAt side entry initialStop 3.0));
      [| done]. rewrite H32 in H; done.
Qed.

(** On a ladder that satisfies the invariant a call either leaves the
    position alone or hands the first rung that has not executed to the
    exchange; [k] is the number of rungs executed before the call. *)
Lemma MonitorAndExecute_ladder ex pos price e1 e2 e3 t1 t2 t3 p1 p2 p3 :
  let levels :=
    ladderOf (Side pos) (EntryPrice pos) (InitialStopLoss pos)
      e1 e2 e3 t1 t2 t3 p1 p2 p3 in
  let config := {| Enabled := true; Levels := levels |} in
  TakeProfit pos = Some config ->
  (e2 = true -> e1 = true) -> (e3 = true -> e2 = true) ->
  MonitorAndExecute ex pos price = (pos, [], 0%nat, None)
  \/ exists k level,
       levels !! k = Some level
       /\ map Executed levels = replicate k true ++ replicate (3 - k) false
       /\ MonitorAndExecute ex pos price = executeRung ex pos config 0 k level.
Proof.
  intros levels config Htp H21 H32.
  pose proof (fun side entry stop =>
                proj1 (targetReached_later_false side entry stop price))
    as Hf12.
  pose proof (fun side entry stop =>
                proj2 (targetReached_later_false side entry stop price))
    as Hf23.
  unfold MonitorAndExecute. rewrite Htp. cbn [Enabled negb Levels config].
  unfold levels, ladderOf.
  destruct e1.
  2:{ (* no rung has executed *)
      assert (e2 = false) as -> by (destruct e2; [discriminate H21 |]; done).
      assert (e3 = false) as -> by (destruct e3; [discriminate H32 |]; done).
      destruct (targetReached (Side pos) price
                  (targetAt (Side pos) (EntryPrice pos) (InitialStopLoss pos) 1.0))
        eqn:Hr1.
      - right. eexists 0%nat, _. split; [reflexivity |]. split; [reflexivity |].
        by apply monitorLevels_hit.
      - left. rewrite monitorLevels_skip by (right; exact Hr1).
        rewrite monitorLevels_skip by (right; exact (Hf12 _ _ _ Hr1)).
        rewrite monitorLevels_skip by (right; exact (Hf23 _ _ _ (Hf12 _ _ _ Hr1))).
        apply monitorLevels_nil. }
  rewrite monitorLevels_skip by (by left).
  destruct e2.
  2:{ (* rung 1 has executed *)
      assert (e3 = false) as -> by (destruct e3; [discriminate H32 |]; done).
      destruct (targetReached (Side pos) price
                  (targetAt (Side pos) (EntryPrice pos) (InitialStopLoss pos) 2.0))
        eqn:Hr2.
      - right. eexists 1%nat, _. split; [reflexivity |]. split; [reflexivity |].
        by apply monitorLevels_hit.
      - left. rewrite monitorLevels_skip by (right; exact Hr2).
        rewrite monitorLevels_skip by (right; exact (Hf23 _ _ _ Hr2)).
        apply monitorLevels_nil. }
  rewrite monitorLevels_skip by (by left).
  destruct e3.
  2:{ (* rungs 1 and 2 have executed *)
      destruct (targetReached (Side pos) price
                  (targetAt (Side pos) (EntryPrice pos) (InitialStopLoss pos) 3.0))
        eqn:Hr3.
      - right. eexists 2%nat, _. split; [reflexivity |]. split; [reflexivity |].
        by apply monitorLevels_hit.
      - left. rewrite monitorLevels_skip by (right; exact Hr3).
        apply monitorLevels_nil. }
  left. rewrite monitorLevels_skip by (by left). apply monitorLevels_nil.
Qed.

(** What a call does to a position whose ladder satisfies the invariant:
    nothing, or the execution of the first rung not yet executed. *)
Lemma MonitorAndExecute_effect ex pos price :
  LadderInv pos ->
  let r := MonitorAndExecute ex pos price in
  (resultCount r = 0%nat /\ resultPosition r = pos
   /\ (List.length (resultRequests r) <= 1)%nat)
  \/ exists k level fill,
       resultCount r = 1%nat /\ resultError r = None
       /\ levelsOf pos !! k = Some level
       /\ executedFlags pos = replicate k true ++ replicate (3 - k) false
       /\ levelsOf (resultPosition r)
          = <[k := markExecuted (now ex) fill level]> (levelsOf pos)
       /\ resultRequests r
          = [ReqExecuteTrade (Symbol pos)
               (if String.eqb (Side pos) "short" then ActionCloseShort
                else ActionCloseLong)
               (Quantity pos * Percentage level)]
       /\ Quantity (resultPosition r)
          = Quantity pos - Quantity pos * Percentage level
       /\ Side (resultPosition r) = Side pos
       /\ EntryPrice (resultPosition r) = EntryPrice pos
       /\ InitialStopLoss (resultPosition r) = InitialStopLoss pos
       /\ CurrentStopLoss (resultPosition r) = CurrentStopLoss pos.
Proof.
  intros (e1 & e2 & e3 & t1 & t2 & t3 & p1 & p2 & p3 & Htp & H21 & H32) r.
  destruct (MonitorAndExecute_ladder ex pos price _ _ _ _ _ _ _ _ _ Htp H21 H32)
    as [Hnone | (k & level & Hk & Hflags & Hexec)]; subst r.
  { left. rewrite Hnone. cbn. auto. }
  rewrite Hexec. unfold executeRung.
  destruct (Success _) eqn:Hok.
  - right.
    exists k, level,
      (Price (executeTrade ex (Symbol pos)
                (if String.eqb (Side pos) "short" then ActionCloseShort
                 else ActionCloseLong)
                (Quantity pos * Percentage level))).
    unfold resultCount, resultError, resultPosition, resultRequests,
      executedFlags, levelsOf.
    rewrite Htp. destruct pos; cbn. repeat split; done.
  - left. cbn. auto.
Qed.

Lemma LadderInv_monitor ex pos price :
  LadderInv pos -> LadderInv (resultPosition (MonitorAndExecute ex pos price)).
Proof.
  intros Hinv.
  pose proof Hinv as
    (e1 & e2 & e3 & t1 & t2 & t3 & p1 & p2 & p3 & Htp & H21 & H32).
  destruct (MonitorAndExecute_ladder ex pos price _ _ _ _ _ _ _ _ _ Htp H21 H32)
    as [Hnone | (k & level & Hk & Hflags & Hexec)].
  { by rewrite Hnone. }
  rewrite Hexec. unfold executeRung.
  destruct (Success _); [| done].
  unfold resultPosition, LadderInv. clear Hexec Hinv.
  destruct pos as [sym side entry qty isl csl hp cp slt oid hist tp].
  cbn in *.
  destruct k as [| [| [| k]]]; cbn in Hk, Hflags; [| | | done];
    injection Hflags as -> -> ->; injection Hk as <-;
    cbn; do 9 eexists; (split; [reflexivity | done]).
Qed.

Lemma LadderInv_static pos pos' :
  sameStatic pos pos' -> LadderInv pos -> LadderInv pos'.
Proof.
  intros (_ & Hside & Hentry & Hisl & _ & Htp).
  unfold LadderInv. by rewrite Hside, Hentry, Hisl, Htp.
Qed.

Lemma RegisterPosition_lookup pos sm :
  exists pos',
    positions (RegisterPosition pos sm) !! Symbol pos = Some pos'
    /\ sameStatic pos pos' /\ CurrentStopLoss pos' = CurrentStopLoss pos.
Proof.
  destruct pos as [sym side entry qty isl csl hp cp slt oid hist tp].
  unfold RegisterPosition, store; cbn.
  eexists. split; [apply lookup_insert_eq |]. by repeat split.
Qed.

(** The positions whose ladder was initialized and that were then driven
    by the operations of the three files: calls of [MonitorAndExecute],
    registration, stop updates and price ticks of the manager that holds
    them. *)
Inductive ladder_reachable : Position -> Prop :=
| reach_init pos :
    ladder_reachable (InitializeTakeProfitLevels pos)
| reach_monitor ex pos price :
    ladder_reachable pos ->
    ladder_reachable (resultPosition (MonitorAndExecute ex pos price))
| reach_register pos sm pos' :
    ladder_reachable pos ->
    positions (RegisterPosition pos sm) !! Symbol pos = Some pos' ->
    ladder_reachable pos'
| reach_manager pos sm op symbol pos' :
    ladder_reachable pos ->
    positions sm !! symbol = Some pos ->
    positions (step sm op) !! symbol = Some pos' ->
    ladder_reachable pos'.

Lemma ladder_reachable_inv pos : ladder_reachable pos -> LadderInv pos.
Proof.
  induction 1 as [pos | ex pos price _ IH | pos sm pos' _ IH Hreg
                 | pos sm op symbol pos' _ IH Hpos Hpos'].
  - apply LadderInv_init.
  - by apply LadderInv_monitor.
  - destruct (RegisterPosition_lookup pos sm) as (p & Hp & Hst & _).
    rewrite Hp in Hreg. injection Hreg as <-.
    by apply (LadderInv_static pos).
  - destruct (step_lookup _ _ _ _ _ Hpos Hpos') as [Hst _].
    by apply (LadderInv_static pos).
Qed.

(** C8. For every position with an initialized ladder and every single
    call of [MonitorAndExecute]: at most one rung is executed and at most
    one order is sent; a rung that executes was not executed before the
    call, and all rungs below it were (so the rungs execute in ascending
    order of level and none executes twice). *)
Theorem one_rung_per_call_in_order (ex : Exchange) (pos : Position)
    (price : Q) :
  ladder_reachable pos ->
  let r := MonitorAndExecute ex pos price in
  (resultCount r <= 1)%nat
  /\ (List.length (resultRequests r) <= 1)%nat
  /\ (resultCount r = 0%nat -> executedFlags (resultPosition r) = executedFlags pos)
  /\ (resultCount r = 1%nat ->
      exists k,
        executedFlags pos !! k = Some false
        /\ (forall j, (j < k)%nat -> executedFlags pos !! j = Some true)
        /\ executedFlags (resultPosition r) = <[k := true]> (executedFlags pos)).
Proof.
  intros Hreach r. apply ladder_reachable_inv in Hreach.
  destruct (MonitorAndExecute_effect ex pos price Hreach)
    as [(Hc & Hp & Hlen)
       | (k & level & fill & Hc & _ & Hk & Hflags & Hlev & Hreq & _)];
    fold r in Hc |- *.
  - fold r in Hp, Hlen. rewrite Hc, Hp. repeat split; try done; lia.
  - fold r in Hlev, Hreq. rewrite Hc, Hreq. repeat split; try done.
    intros _. exists k.
    assert (Hk3 : (k < 3)%nat).
    { apply lookup_lt_Some in Hk.
      assert (Hl : List.length (executedFlags pos) = (k + (3 - k))%nat).
      { by rewrite Hflags, length_app, !length_replicate. }
      unfold executedFlags in Hl. rewrite length_map in Hl. lia. }
    split; [| split].
    + rewrite Hflags. rewrite lookup_app_r by (rewrite length_replicate; lia).
      rewrite length_replicate, Nat.sub_diag.
      destruct k as [| [| [| k]]]; simpl; done || lia.
    + intros j Hj. rewrite Hflags.
      rewrite lookup_app_l by (rewrite length_replicate; lia).
      by apply lookup_replicate_2.
    + unfold executedFlags at 1. rewrite Hlev.
      rewrite list_fmap_insert. done.
Qed.

Lemma one_rung_per_call_in_order_witness :
  let r := MonitorAndExecute acceptingExchange
             (InitializeTakeProfitLevels btcLong) 60000 in
  (resultCount r <= 1)%nat
  /\ (List.length (resultRequests r) <= 1)%nat
  /\ (resultCount r = 0%nat ->
      executedFlags (resultPosition r)
      = executedFlags (InitializeTakeProfitLevels btcLong))
  /\ (resultCount r = 1%nat ->
      exists k,
        executedFlags (InitializeTakeProfitLevels btcLong) !! k = Some false
        /\ (forall j, (j < k)%nat ->
            executedFlags (InitializeTakeProfitLevels btcLong) !! j = Some true)
        /\ executedFlags (resultPosition r)
           = <[k := true]> (executedFlags (InitializeTakeProfitLevels btcLong))).
Proof.
  exact (one_rung_per_call_in_order acceptingExchange
           (InitializeTakeProfitLevels btcLong) 60000 (reach_init btcLong)).
Defined.

(** Follows the spec's words: the executed rung of highest index, if one
    has executed. *)
Fixpoint highestExecuted (levels : list TakeProfitLevel)
  : option TakeProfitLevel :=
  match levels with
  | [] => None
  | level :: rest =>
      match highestExecuted rest with
      | Some higher => Some higher
      | None => if Executed level then Some level else None
      end
  end.

(** C9. For every position with an initialized ladder, the floor query
    returns the [NewStopLoss] of the executed rung of highest index and
    reports no floor exactly when no rung has executed; the floor of
    rung 1 is the entry price and the floor of a higher rung is the target
    price of the rung below it. *)
Theorem floor_is_highest_executed_rung (pos : Position) :
  ladder_reachable pos ->
  GetMinimumStopLoss pos
  = match highestExecuted (levelsOf pos) with
    | Some level => (NewStopLoss level, true)
    | None => (0, false)
    end
  /\ ((GetMinimumStopLoss pos).2 = false
      <-> Forall (fun level => Executed level = false) (levelsOf pos))
  /\ (forall k level, levelsOf pos !! k = Some level ->
      match k with
      | O => NewStopLoss level = EntryPrice pos
      | S j => exists below,
                 levelsOf pos !! j = Some below
                 /\ NewStopLoss level = TargetPrice below
      end).
Proof.
  intros Hreach. apply ladder_reachable_inv in Hreach.
  destruct Hreach as
    (e1 & e2 & e3 & t1 & t2 & t3 & p1 & p2 & p3 & Htp & H21 & H32).
  unfold GetMinimumStopLoss, levelsOf. rewrite Htp.
  cbn [Enabled negb Levels]. unfold ladderOf.
  split; [| split].
  - destruct e1, e2, e3; cbn; try reflexivity;
      try (discriminate H21; reflexivity);
      try (discriminate H32; reflexivity).
  - destruct e1, e2, e3; cbn;
      try (discriminate H21; reflexivity);
      try (discriminate H32; reflexivity);
      (split; [try discriminate; intros _; repeat constructor
              | try reflexivity; intros Hall; inversion Hall; discriminate]).
  - intros k level Hk.
    destruct k as [| [| [| k]]]; cbn in Hk; [| | | done];
      injection Hk as <-; cbn; [done | |]; eexists; (split; [reflexivity | done]).
Qed.

Lemma floor_is_highest_executed_rung_witness :
  GetMinimumStopLoss
    (resultPosition
       (MonitorAndExecute acceptingExchange
          (InitializeTakeProfitLevels btcLong) 51250))
  = (50000, true).
Proof.
  destruct (floor_is_highest_executed_rung
              (resultPosition
                 (MonitorAndExecute acceptingExchange
                    (InitializeTakeProfitLevels btcLong) 51250)))
    as [Hfloor _].
  - apply reach_monitor, reach_init.
  - rewrite Hfloor. reflexivity.
Defined.

(** The quantities of the partial closes among the requests sent. *)
Definition tradeQuantities (sent : list Request) : list Q :=
  omap (fun req => match req with
                   | ReqExecuteTrade _ _ quantity => Some quantity
                   | _ => None
                   end) sent.

(** C1 (the code at the failing input). A long position of original
    quantity [q] whose three rungs execute one after the other: each close
    is a share of the quantity that is left, not of [q]; the rungs close
    [0.30 q], [0.21 q] and [0.196 q], and [0.294 q] stays open after the
    last one. *)
Theorem ladder_closes_share_of_remaining (q : Q) :
  let p0 := InitializeTakeProfitLevels (set_Quantity q btcLong) in
  let r1 := MonitorAndExecute acceptingExchange p0 51250 in
  let r2 := MonitorAndExecute acceptingExchange (resultPosition r1) 52500 in
  let r3 := MonitorAndExecute acceptingExchange (resultPosition r2) 53750 in
  executedFlags (resultPosition r3) = [true; true; true]
  /\ Forall2 Qeq
       (tradeQuantities
          (resultRequests r1 ++ resultRequests r2 ++ resultRequests r3))
       [q * 0.30; q * 0.21; q * 0.196]
  /\ Quantity (resultPosition r3) == q * 0.294.
Proof.
  intros p0 r1 r2 r3.
  split; [reflexivity |]. split.
  - change (Forall2 Qeq
              [q * 0.30; (q - q * 0.30) * 0.30;
               (q - q * 0.30 - (q - q * 0.30) * 0.30) * 0.40]
              [q * 0.30; q * 0.21; q * 0.196]).
    repeat constructor; ring.
  - change (q - q * 0.30 - (q - q * 0.30) * 0.30
            - (q - q * 0.30 - (q - q * 0.30) * 0.30) * 0.40 == q * 0.294).
    ring.
Qed.

(** With original quantity 1, the quantity left after the three rungs is
    not zero. *)
Example ladder_leaves_quantity_open :
  let p0 := InitializeTakeProfitLevels btcLong in
  let r1 := MonitorAndExecute acceptingExchange p0 51250 in
  let r2 := MonitorAndExecute acceptingExchange (resultPosition r1) 52500 in
  let r3 := MonitorAndExecute acceptingExchange (resultPosition r2) 53750 in
  executedFlags (resultPosition r3) = [true; true; true]
  /\ Quantity (resultPosition r3) == 0.294
  /\ ~ Quantity (resultPosition r3) == 0.
Proof. vm_compute. repeat split; discriminate. Qed.

(** ** The floor and the stop updates *)

Lemma GetMinimumStopLoss_static pos pos' :
  sameStatic pos pos' -> GetMinimumStopLoss pos' = GetMinimumStopLoss pos.
Proof.
  intros (_ & _ & _ & _ & _ & Htp). unfold GetMinimumStopLoss. by rewrite Htp.
Qed.

(** C2 (amended). Once rung 1 (and no other) has executed,
    [GetMinimumStopLoss] reports the entry price as the floor.
    [UpdateStopLoss] does not consult it: an update that is accepted
    commits the proposal as it is, and the direction check alone bounds
    it, so the committed stop of a long position is never below the
    previous stop and that of a short position never above it. *)
Theorem accepted_stop_is_the_proposal (ex : Exchange) (sm : StopLossManager)
    (symbol : string) (pos : Position) (newStopLoss : Q) (reason : string) :
  positions sm !! symbol = Some pos ->
  (ladder_reachable pos -> executedFlags pos = [true; false; false] ->
   GetMinimumStopLoss pos = (EntryPrice pos, true))
  /\ ((UpdateStopLoss ex sm symbol newStopLoss reason).2 = None ->
      exists pos',
        positions (UpdateStopLoss ex sm symbol newStopLoss reason).1.1
          !! symbol = Some pos'
        /\ CurrentStopLoss pos' = newStopLoss
        /\ (Side pos = "long" -> CurrentStopLoss pos <= newStopLoss)
        /\ (Side pos = "short" -> newStopLoss <= CurrentStopLoss pos)
        /\ GetMinimumStopLoss pos' = GetMinimumStopLoss pos).
Proof.
  intros Hpos. split.
  - intros Hreach Hflags. apply ladder_reachable_inv in Hreach.
    destruct Hreach as
      (e1 & e2 & e3 & t1 & t2 & t3 & p1 & p2 & p3 & Htp & _).
    unfold executedFlags, levelsOf in Hflags. rewrite Htp in Hflags.
    cbn in Hflags. injection Hflags as -> -> ->.
    unfold GetMinimumStopLoss. rewrite Htp. reflexivity.
  - intros Hok.
    destruct (String.eqb (Side pos) "long"
              && Qltb newStopLoss (CurrentStopLoss pos)) eqn:Hl.
    { unfold UpdateStopLoss in Hok. rewrite Hpos in Hok; cbv zeta in Hok.
      rewrite Hl in Hok. discriminate Hok. }
    destruct (String.eqb (Side pos) "short"
              && Qgtb newStopLoss (CurrentStopLoss pos)) eqn:Hs.
    { unfold UpdateStopLoss in Hok. rewrite Hpos in Hok; cbv zeta in Hok.
      rewrite Hl, Hs in Hok. discriminate Hok. }
    pose proof (direction_checks_pass_inv _ _ Hl Hs) as Hdir.
    destruct (UpdateStopLoss_passed ex sm symbol pos newStopLoss reason
                Hpos Hdir) as (pos' & pre & Hst & _ & Hres).
    destruct (stopOrderAnswer _ _ _); destruct Hres as [Hres Hstop];
      rewrite Hres in Hok |- *; [| discriminate Hok].
    exists pos'. cbn [fst]. rewrite lookup_store, decide_True by done.
    destruct Hdir as [Hlong Hshort].
    repeat split; try done. by apply GetMinimumStopLoss_static.
Qed.

Lemma accepted_stop_is_the_proposal_witness :
  let pos :=
    resultPosition
      (MonitorAndExecute acceptingExchange
         (InitializeTakeProfitLevels btcLong) 51250) in
  let sm := RegisterPosition pos NewStopLossManager in
  exists pos',
    positions (UpdateStopLoss acceptingExchange sm "BTCUSDT" 49000 "trail").1.1
      !! "BTCUSDT" = Some pos'
    /\ CurrentStopLoss pos' = 49000
    /\ GetMinimumStopLoss pos' = (50000, true).
Proof.
  intros pos sm.
  destruct (accepted_stop_is_the_proposal acceptingExchange sm "BTCUSDT"
              (set_StopLossType "fixed" pos) 49000 "trail")
    as [Hfloor Hupdate].
  - vm_compute. reflexivity.
  - destruct Hupdate as (pos' & Hlookup & Hstop & _ & _ & Hsame);
      [vm_compute; reflexivity |].
    exists pos'. split; [exact Hlookup |]. split; [exact Hstop |].
    rewrite Hsame. apply Hfloor; [| reflexivity].
    eapply (reach_register pos NewStopLossManager);
      [apply reach_monitor, reach_init | vm_compute; reflexivity].
Defined.

(** The claim as stated fails: after rung 1 of the long position has
    executed the floor is the entry price 50000, and a proposal of 49000,
    above the old stop 48750 and below the floor, is accepted and
    committed unchanged. *)
Lemma stop_below_floor_is_committed :
  let pos :=
    resultPosition
      (MonitorAndExecute acceptingExchange
         (InitializeTakeProfitLevels btcLong) 51250) in
  let sm := RegisterPosition pos NewStopLossManager in
  let r := UpdateStopLoss acceptingExchange sm "BTCUSDT" 49000 "trail" in
  executedFlags pos = [true; false; false]
  /\ GetMinimumStopLoss pos = (50000, true)
  /\ r.2 = None
  /\ (CurrentStopLoss <$> positions r.1.1 !! "BTCUSDT") = Some 49000
  /\ (GetMinimumStopLoss <$> positions r.1.1 !! "BTCUSDT") = Some (50000, true)
  /\ 49000 < 50000.
Proof. vm_compute. repeat split. Qed.

(** * Further properties of the code *)

(** ** Symbols *)

Lemma upper_ascii_slash c :
  Ascii.eqb (upper_ascii c) "/"%char = Ascii.eqb c "/"%char.
Proof.
  destruct c as [[] [] [] [] [] [] [] []]; vm_compute; reflexivity.
Qed.

Lemma upper_ascii_idem c : upper_ascii (upper_ascii c) = upper_ascii c.
Proof.
  destruct c as [[] [] [] [] [] [] [] []]; vm_compute; reflexivity.
Qed.

Lemma ToUpper_idem s : ToUpper (ToUpper s) = ToUpper s.
Proof.
  induction s as [| c s IH]; simpl; [done |].
  by rewrite upper_ascii_idem, IH.
Qed.

Lemma remove_slashes_idem s : remove_slashes (remove_slashes s) = remove_slashes s.
Proof.
  induction s as [| c s IH]; simpl; [done |].
  destruct (Ascii.eqb c "/"%char) eqn:Hc; [done |].
  simpl. by rewrite Hc, IH.
Qed.

Lemma remove_slashes_ToUpper s :
  remove_slashes (ToUpper s) = ToUpper (remove_slashes s).
Proof.
  induction s as [| c s IH]; simpl; [done |].
  rewrite upper_ascii_slash.
  destruct (Ascii.eqb c "/"%char); simpl; by rewrite IH.
Qed.

(** The characters of a string. *)
Fixpoint chars (s : string) : list ascii :=
  match s with
  | EmptyString => []
  | String c rest => c :: chars rest
  end.

Lemma chars_remove_slashes s :
  chars (remove_slashes s)
  = List.filter (fun c => negb (Ascii.eqb c "/"%char)) (chars s).
Proof.
  induction s as [| c s IH]; simpl; [done |].
  destruct (Ascii.eqb c "/"%char); simpl; by rewrite IH.
Qed.

(** X1. The symbol sent to the exchange holds no slash, keeps the other
    characters in their order, and is left alone when converted again;
    [GetAllBinanceSymbols] converts each symbol of the list in place. *)
Theorem binance_symbol_has_no_slash (symbol : string)
    (cryptoSymbols : list string) :
  ("/"%char ∉ chars (GetBinanceSymbolFor symbol))
  /\ chars (GetBinanceSymbolFor symbol)
     = List.filter (fun c => negb (Ascii.eqb c "/"%char)) (chars symbol)
  /\ GetBinanceSymbolFor (GetBinanceSymbolFor symbol)
     = GetBinanceSymbolFor symbol
  /\ List.length (GetAllBinanceSymbols cryptoSymbols) = List.length cryptoSymbols
  /\ (forall i s, cryptoSymbols !! i = Some s ->
      GetAllBinanceSymbols cryptoSymbols !! i = Some (GetBinanceSymbolFor s)).
Proof.
  unfold GetBinanceSymbolFor, GetAllBinanceSymbols.
  split; [| split; [| split; [| split]]].
  - rewrite chars_remove_slashes. intros Hin.
    apply list_elem_of_In, filter_In in Hin. destruct Hin as [_ Hin].
    discriminate Hin.
  - apply chars_remove_slashes.
  - apply remove_slashes_idem.
  - apply length_map.
  - intros i s Hi. change (map remove_slashes cryptoSymbols)
      with (remove_slashes <$> cryptoSymbols).
    by rewrite list_lookup_fmap, Hi.
Qed.

Lemma binance_symbol_has_no_slash_witness :
  GetAllBinanceSymbols ["BTC/USDT"; "ETH/USDT"] !! 1%nat = Some "ETHUSDT".
Proof.
  destruct (binance_symbol_has_no_slash "BTC/USDT" ["BTC/USDT"; "ETH/USDT"])
    as (_ & _ & _ & _ & Hat).
  apply (Hat 1%nat "ETH/USDT"). reflexivity.
Defined.

(** ** The calculator *)

(** X2. [GetConfig] does not see slashes nor the case of ASCII letters: a
    symbol and its normal form get the same parameters, and the normal
    form is its own normal form. *)
Theorem GetConfig_normal_form (calc : Calculator.TrailingStopCalculator)
    (symbol : string) :
  let normal := ToUpper (remove_slashes symbol) in
  Calculator.GetConfig calc normal = Calculator.GetConfig calc symbol
  /\ ToUpper (remove_slashes normal) = normal.
Proof.
  intros normal.
  assert (Hn : ToUpper (remove_slashes normal) = normal).
  { unfold normal.
    by rewrite remove_slashes_ToUpper, remove_slashes_idem, ToUpper_idem. }
  split; [| done]. unfold Calculator.GetConfig. by rewrite Hn.
Qed.

(** The parameters every entry of the built-in table has. *)
Definition builtinParameters (config : Calculator.TrailingStopConfig) : Prop :=
  Calculator.InitialATRMultiplier config = 2.5
  /\ Calculator.TrailingATRMultiplier config = 2.5
  /\ Calculator.UpdateThreshold config = 0.3
  /\ Calculator.MinStopDistance config = 0.5
  /\ 5 <= Calculator.MaxStopDistance config
  /\ Calculator.MaxStopDistance config <= 8.

(** The maximum distance of the built-in table for a symbol in normal
    form: that of the entry of the symbol, and that of the DEFAULT entry
    for a symbol with no entry. *)
Definition builtinMaxDistance (normal : string) : Q :=
  if String.eqb normal "XRPUSDT" then 8.0
  else if String.eqb normal "BNBUSDT" then 7.0
  else if String.eqb normal "SOLUSDT" then 8.0
  else if String.eqb normal "ETHUSDT" then 6.0
  else if String.eqb normal "BTCUSDT" then 6.0
  else 5.0.

Ltac lookup_entry normal key :=
  rewrite lookup_insert;
  destruct (String.eqb_spec normal key) as [-> | ?];
  [ rewrite decide_True by done; reflexivity
  | rewrite decide_False by congruence ].

Lemma getDefaultConfigs_lookup normal :
  Calculator.getDefaultConfigs !! normal
  = if String.eqb normal "DEFAULT" then Some (Calculator.mkConfig 5.0)
    else if String.eqb normal "XRPUSDT" then Some (Calculator.mkConfig 8.0)
    else if String.eqb normal "BNBUSDT" then Some (Calculator.mkConfig 7.0)
    else if String.eqb normal "SOLUSDT" then Some (Calculator.mkConfig 8.0)
    else if String.eqb normal "ETHUSDT" then Some (Calculator.mkConfig 6.0)
    else if String.eqb normal "BTCUSDT" then Some (Calculator.mkConfig 6.0)
    else None.
Proof.
  unfold Calculator.getDefaultConfigs.
  lookup_entry normal "DEFAULT". lookup_entry normal "XRPUSDT".
  lookup_entry normal "BNBUSDT". lookup_entry normal "SOLUSDT".
  lookup_entry normal "ETHUSDT". lookup_entry normal "BTCUSDT".
  apply lookup_empty.
Qed.

(** X3. With the built-in table a symbol whose normal form is BTCUSDT,
    ETHUSDT, SOLUSDT, BNBUSDT or XRPUSDT gets the entry of that symbol
    (maximum distance 6, 6, 8, 7, 8), and every other symbol falls back to
    the DEFAULT entry (maximum distance 5), never to zero parameters; all
    entries have both multipliers 2.5, the update threshold 0.3 and the
    minimum distance 0.5. *)
Theorem builtin_parameters_for_every_symbol (symbol : string) :
  let normal := ToUpper (remove_slashes symbol) in
  let config :=
    Calculator.GetConfig Calculator.NewTrailingStopCalculator symbol in
  config = Calculator.mkConfig (builtinMaxDistance normal)
  /\ (Calculator.getDefaultConfigs !! normal = None ->
      Calculator.getDefaultConfigs !! "DEFAULT" = Some config
      /\ Calculator.MaxStopDistance config = 5.0)
  /\ builtinParameters config.
Proof.
  intros normal config.
  assert (Hconfig : config = Calculator.mkConfig (builtinMaxDistance normal)).
  { subst config. unfold Calculator.GetConfig,
      Calculator.NewTrailingStopCalculator. cbn [Calculator.configs].
    fold normal. rewrite (getDefaultConfigs_lookup normal),
      (getDefaultConfigs_lookup "DEFAULT").
    unfold builtinMaxDistance.
    destruct (String.eqb_spec normal "DEFAULT") as [-> | _]; [reflexivity |].
    destruct (String.eqb normal "XRPUSDT"); [reflexivity |].
    destruct (String.eqb normal "BNBUSDT"); [reflexivity |].
    destruct (String.eqb normal "SOLUSDT"); [reflexivity |].
    destruct (String.eqb normal "ETHUSDT"); [reflexivity |].
    destruct (String.eqb normal "BTCUSDT"); reflexivity. }
  split; [exact Hconfig |]. split.
  - rewrite Hconfig. rewrite (getDefaultConfigs_lookup normal),
      (getDefaultConfigs_lookup "DEFAULT").
    unfold builtinMaxDistance.
    destruct (String.eqb normal "DEFAULT"); [discriminate |].
    destruct (String.eqb normal "XRPUSDT"); [discriminate |].
    destruct (String.eqb normal "BNBUSDT"); [discriminate |].
    destruct (String.eqb normal "SOLUSDT"); [discriminate |].
    destruct (String.eqb normal "ETHUSDT"); [discriminate |].
    destruct (String.eqb normal "BTCUSDT"); [discriminate |].
    intros _. split; reflexivity.
  - rewrite Hconfig. unfold builtinMaxDistance.
    destruct (String.eqb normal "XRPUSDT"), (String.eqb normal "BNBUSDT"),
      (String.eqb normal "SOLUSDT"), (String.eqb normal "ETHUSDT"),
      (String.eqb normal "BTCUSDT");
      (repeat split; try reflexivity; apply Qle_bool_iff; reflexivity).
Qed.

Lemma builtin_parameters_for_every_symbol_witness :
  Calculator.MaxStopDistance
    (Calculator.GetConfig Calculator.NewTrailingStopCalculator "DOGE/USDT")
  = 5.0.
Proof.
  apply (builtin_parameters_for_every_symbol "DOGE/USDT").
  vm_compute. reflexivity.
Defined.

(** X4. For each side the valid updates are a strict order on stops: no
    stop is a valid update of itself, an update and its reverse are never
    both valid, and valid updates chain.  A short update is valid exactly
    when the reverse long update is. *)
Theorem IsValidUpdate_strict_order (side : string) (a b c : Q) :
  Calculator.IsValidUpdate side a a = false
  /\ (Calculator.IsValidUpdate side a b = true ->
      Calculator.IsValidUpdate side b a = false)
  /\ (Calculator.IsValidUpdate side a b = true ->
      Calculator.IsValidUpdate side b c = true ->
      Calculator.IsValidUpdate side a c = true)
  /\ Calculator.IsValidUpdate "short" a b = Calculator.IsValidUpdate "long" b a.
Proof.
  unfold Calculator.IsValidUpdate.
  split; [| split; [| split]]; [| | | reflexivity];
    destruct (String.eqb side "long").
  - apply Qgtb_le, Qle_refl.
  - apply Qltb_ge, Qle_refl.
  - rewrite Qgtb_gt, Qgtb_le. apply Qlt_le_weak.
  - rewrite Qltb_lt, Qltb_ge. apply Qlt_le_weak.
  - rewrite !Qgtb_gt. intros H1 H2. by apply (Qlt_trans _ b).
  - rewrite !Qltb_lt. intros H1 H2. by apply (Qlt_trans _ b).
Qed.

Lemma IsValidUpdate_strict_order_witness :
  Calculator.IsValidUpdate "long" 50750 48750 = false
  /\ Calculator.IsValidUpdate "long" 48750 51750 = true.
Proof.
  destruct (IsValidUpdate_strict_order "long" 48750 50750 51750)
    as (_ & Hrev & Hchain & _).
  split; [apply Hrev | apply Hchain]; reflexivity.
Defined.

(** X5. When the extreme price improves and the ATR is the same, the new
    trailing stop is a valid update of the old one: a higher high for a
    long position, a lower low for a short one. *)
Theorem trailing_stop_follows_extreme
    (calc : Calculator.TrailingStopCalculator) (symbol : string)
    (extreme extreme' atr : Q) :
  (extreme < extreme' ->
   Calculator.IsValidUpdate "long"
     (Calculator.CalculateTrailingStop calc symbol extreme atr "long")
     (Calculator.CalculateTrailingStop calc symbol extreme' atr "long") = true)
  /\ (extreme' < extreme ->
      Calculator.IsValidUpdate "short"
        (Calculator.CalculateTrailingStop calc symbol extreme atr "short")
        (Calculator.CalculateTrailingStop calc symbol extreme' atr "short") = true).
Proof.
  rewrite !CalculateTrailingStop_long, !CalculateTrailingStop_short.
  unfold Calculator.IsValidUpdate.
  change (String.eqb "long" "long") with true.
  change (String.eqb "short" "long") with false. cbv iota.
  rewrite Qgtb_gt, Qltb_lt. split; intros H; lra.
Qed.

Lemma trailing_stop_follows_extreme_witness :
  Calculator.IsValidUpdate "long"
    (Calculator.CalculateTrailingStop Calculator.NewTrailingStopCalculator
       "BTCUSDT" 52000 500 "long")
    (Calculator.CalculateTrailingStop Calculator.NewTrailingStopCalculator
       "BTCUSDT" 53000 500 "long") = true.
Proof.
  apply (proj1 (trailing_stop_follows_extreme
                  Calculator.NewTrailingStopCalculator "BTCUSDT"
                  52000 53000 500)).
  reflexivity.
Defined.





(** X7. A stop on the profit side of a positive reference price is never
    at a valid distance when the minimum distance is positive: for a long
    position a stop at or above the price, for any other side a stop at or
    below it. *)
Theorem stop_on_wrong_side_is_invalid
    (calc : Calculator.TrailingStopCalculator) (symbol side : string)
    (entryPrice stopPrice : Q) :
  0 < entryPrice ->
  0 < Calculator.MinStopDistance (Calculator.GetConfig calc symbol) ->
  (if String.eqb side "long" then entryPrice <= stopPrice
   else stopPrice <= entryPrice) ->
  Calculator.ValidateStopDistance calc symbol entryPrice stopPrice side = false.
Proof.
  intros Hentry Hmin Hside.
  unfold Calculator.ValidateStopDistance. cbv zeta.
  destruct (Qeq_bool entryPrice 0); [done |].
  apply andb_false_iff. left. apply not_true_iff_false.
  rewrite Qgeb_ge. intros Hle.
  assert (Hd : (if String.eqb side "long"
                then (entryPrice - stopPrice) / entryPrice * 100
                else (stopPrice - entryPrice) / entryPrice * 100) <= 0).
  { destruct (String.eqb side "long").
    - assert (H : (entryPrice - stopPrice) / entryPrice <= 0)
        by (apply Qle_shift_div_r; [done | lra]).
      lra.
    - assert (H : (stopPrice - entryPrice) / entryPrice <= 0)
        by (apply Qle_shift_div_r; [done | lra]).
      lra. }
  lra.
Qed.

Lemma stop_on_wrong_side_is_invalid_witness :
  Calculator.ValidateStopDistance Calculator.NewTrailingStopCalculator
    "BTCUSDT" 50000 50500 "long" = false.
Proof.
  apply (stop_on_wrong_side_is_invalid Calculator.NewTrailingStopCalculator
           "BTCUSDT" "long" 50000 50500); reflexivity || (apply Qle_bool_iff; reflexivity).
Defined.



(** ** The registry of the stop-loss manager *)

Lemma StopLossManager_eq (sm sm' : StopLossManager) :
  positions sm = positions sm' -> sm = sm'.
Proof. destruct sm, sm'; simpl. by intros ->. Qed.

(** X9. Registration then lookup: the position found under its symbol is
    the one given, with the highest and the current price reset to the
    entry price and the stop-loss type set to "fixed"; the stop, the order
    id and the history are kept.  The other symbols are not touched, and a
    second registration under the same symbol replaces the first. *)
Theorem register_then_get (pos : Position) (sm : StopLossManager) :
  (exists pos',
     GetPosition (RegisterPosition pos sm) (Symbol pos) = Some pos'
     /\ HighestPrice pos' = EntryPrice pos
     /\ CurrentPrice pos' = EntryPrice pos
     /\ StopLossType pos' = "fixed"
     /\ sameStatic pos pos'
     /\ CurrentStopLoss pos' = CurrentStopLoss pos
     /\ StopLossOrderID pos' = StopLossOrderID pos
     /\ StopLossHistory pos' = StopLossHistory pos)
  /\ (forall symbol, symbol <> Symbol pos ->
      GetPosition (RegisterPosition pos sm) symbol = GetPosition sm symbol)
  /\ (forall previous, Symbol previous = Symbol pos ->
      RegisterPosition pos (RegisterPosition previous sm)
      = RegisterPosition pos sm).
Proof.
  destruct pos as [sym side entry qty isl csl hp cp slt oid hist tp].
  unfold RegisterPosition, GetPosition, store; cbn.
  split; [| split].
  - eexists. split; [apply lookup_insert_eq |]. by repeat split.
  - intros symbol Hne. by apply lookup_insert_ne.
  - intros previous Hsym. apply StopLossManager_eq; cbn.
    destruct previous; cbn in *. subst. apply insert_insert_eq.
Qed.

Lemma register_then_get_witness :
  GetPosition (RegisterPosition btcLong NewStopLossManager) "ETHUSDT" = None.
Proof.
  destruct (register_then_get btcLong NewStopLossManager) as (_ & Hother & _).
  rewrite (Hother "ETHUSDT"); [reflexivity | discriminate].
Defined.

(** X10. Removal: the symbol is gone, the other symbols are not touched,
    removing a symbol that is not registered changes nothing (so removal
    is idempotent), and removing a position just registered under a fresh
    symbol gives back the manager as it was. *)
Theorem remove_position_properties (symbol : string) (sm : StopLossManager)
    (pos : Position) :
  GetPosition (RemovePosition symbol sm) symbol = None
  /\ (forall other, other <> symbol ->
      GetPosition (RemovePosition symbol sm) other = GetPosition sm other)
  /\ (GetPosition sm symbol = None -> RemovePosition symbol sm = sm)
  /\ RemovePosition symbol (RemovePosition symbol sm) = RemovePosition symbol sm
  /\ (GetPosition sm (Symbol pos) = None ->
      RemovePosition (Symbol pos) (RegisterPosition pos sm) = sm).
Proof.
  unfold GetPosition, RemovePosition, RegisterPosition, store.
  split; [| split; [| split; [| split]]].
  - apply lookup_delete_eq.
  - intros other Hne. by apply lookup_delete_ne.
  - intros Hnone. apply StopLossManager_eq; cbn. by apply delete_id.
  - apply StopLossManager_eq; cbn. apply delete_delete_eq.
  - intros Hnone. apply StopLossManager_eq.
    destruct pos; cbn in *. rewrite delete_insert_eq. by apply delete_id.
Qed.

Lemma remove_position_properties_witness :
  RemovePosition "BTCUSDT" (RegisterPosition btcLong NewStopLossManager)
  = NewStopLossManager.
Proof.
  destruct (remove_position_properties "BTCUSDT" NewStopLossManager btcLong)
    as (_ & _ & _ & _ & Hround).
  apply Hround. reflexivity.
Defined.

(** Every position is stored under its own symbol. *)
Definition keysConsistent (sm : StopLossManager) : Prop :=
  forall symbol pos, positions sm !! symbol = Some pos -> Symbol pos = symbol.

Lemma keysConsistent_step sm op : keysConsistent sm -> keysConsistent (step sm op).
Proof.
  intros Hkeys symbol pos' Hafter.
  destruct (positions sm !! symbol) as [pos |] eqn:Hbefore.
  - destruct (step_lookup _ _ _ _ _ Hbefore Hafter) as [(Hsym & _) _].
    rewrite Hsym. by apply Hkeys.
  - rewrite (step_absent _ op _ Hbefore) in Hafter. discriminate Hafter.
Qed.

Lemma keysConsistent_empty : keysConsistent NewStopLossManager.
Proof. intros s p Hlookup. cbn in Hlookup. by rewrite lookup_empty in Hlookup. Qed.

Lemma keysConsistent_register pos sm :
  keysConsistent sm -> keysConsistent (RegisterPosition pos sm).
Proof.
  intros Hkeys s p.
  destruct pos as [sym side entry qty isl csl hp cp slt oid hist tp].
  unfold RegisterPosition, store; cbn. rewrite lookup_insert.
  case_decide as Hs; [intros [= <-]; done | apply Hkeys].
Qed.

Lemma keysConsistent_remove symbol sm :
  keysConsistent sm -> keysConsistent (RemovePosition symbol sm).
Proof.
  intros Hkeys s p. unfold RemovePosition; cbn. rewrite lookup_delete_Some.
  intros [_ Hlookup]. by apply Hkeys.
Qed.

Lemma keysConsistent_run ops : forall sm,
  keysConsistent sm -> keysConsistent (foldl step sm ops).
Proof.
  induction ops as [| op ops IH]; intros sm Hkeys; [done |].
  cbn. apply IH. by apply keysConsistent_step.
Qed.

(** X11. The manager keeps every position under its own symbol: the
    empty manager does, and registration, removal, stop updates and price
    ticks preserve it, whatever the exchange answers. *)
Theorem keys_stay_consistent (sm : StopLossManager) (pos : Position)
    (symbol : string) (ops : list Op) :
  keysConsistent NewStopLossManager
  /\ (keysConsistent sm ->
      keysConsistent (RegisterPosition pos sm)
      /\ keysConsistent (RemovePosition symbol sm)
      /\ keysConsistent (foldl step sm ops)).
Proof.
  split; [apply keysConsistent_empty |].
  intros Hkeys. split; [| split].
  - by apply keysConsistent_register.
  - by apply keysConsistent_remove.
  - by apply keysConsistent_run.
Qed.

Lemma keys_stay_consistent_witness :
  keysConsistent
    (foldl step btcManager
       [ OpUpdateStopLoss acceptingExchange "BTCUSDT" 50750 "trail";
         OpUpdatePosition acceptingExchange "BTCUSDT" 50000 ]).
Proof.
  apply (proj2 (keys_stay_consistent btcManager btcLong "BTCUSDT"
                  [ OpUpdateStopLoss acceptingExchange "BTCUSDT" 50750 "trail";
                    OpUpdatePosition acceptingExchange "BTCUSDT" 50000 ])).
  apply keysConsistent_register, keysConsistent_empty.
Defined.

(** X12. A stop update or a price tick for one symbol leaves the positions
    of all other symbols as they are (for the price tick, in a manager
    that keeps positions under their own symbols, since a closed position
    is removed under its [Symbol]). *)
Theorem other_symbols_untouched (ex : Exchange) (sm : StopLossManager)
    (symbol other : string) (newStopLoss currentPrice : Q) (reason : string) :
  other <> symbol ->
  GetPosition (UpdateStopLoss ex sm symbol newStopLoss reason).1.1 other
  = GetPosition sm other
  /\ (keysConsistent sm ->
      GetPosition (UpdatePosition ex sm symbol currentPrice).1.1 other
      = GetPosition sm other).
Proof.
  intros Hne. unfold GetPosition. split.
  - destruct (positions sm !! symbol) as [pos |] eqn:Hpos.
    + destruct (UpdateStopLoss_manager ex sm symbol pos newStopLoss reason Hpos)
        as [-> | (pos' & -> & _)]; [done |].
      rewrite lookup_store. by rewrite decide_False.
    + unfold UpdateStopLoss. by rewrite Hpos.
  - intros Hkeys.
    destruct (positions sm !! symbol) as [pos |] eqn:Hpos.
    + assert (Hsym : Symbol (UpdatePrice currentPrice pos) = symbol).
      { destruct (UpdatePrice_static currentPrice pos) as [(-> & _) _].
        by apply Hkeys. }
      destruct (UpdatePosition_manager ex sm symbol pos currentPrice Hpos)
        as [-> | ->].
      * rewrite lookup_store. by rewrite decide_False.
      * unfold RemovePosition; cbn. rewrite Hsym.
        rewrite lookup_delete_ne by done. by rewrite lookup_insert_ne.
    + unfold UpdatePosition. by rewrite Hpos.
Qed.

Lemma other_symbols_untouched_witness :
  GetPosition
    (UpdatePosition acceptingExchange btcManager "ETHUSDT" 3000).1.1 "BTCUSDT"
  = GetPosition btcManager "BTCUSDT".
Proof.
  destruct (other_symbols_untouched acceptingExchange btcManager
              "ETHUSDT" "BTCUSDT" 2900 3000 "trail") as [_ Htick];
    [discriminate |].
  apply Htick. apply keysConsistent_register, keysConsistent_empty.
Defined.

(** ** Orders of the stop-loss manager *)

(** The cancellation [UpdateStopLoss] requests first: none when no order
    is resting. *)
Definition cancelRequests (pos : Position) : list Request :=
  if String.eqb (StopLossOrderID pos) "" then []
  else [ReqCancelOrder (GetBinanceSymbolFor (Symbol pos)) (StopLossOrderID pos)].

(** The order id the position holds once the cancellation was tried. *)
Definition orderIDAfterCancel (ex : Exchange) (pos : Position) : string :=
  if String.eqb (StopLossOrderID pos) "" then ""
  else match cancelOrder ex (GetBinanceSymbolFor (Symbol pos))
               (StopLossOrderID pos) with
       | None => ""
       | Some _ => StopLossOrderID pos
       end.

Lemma UpdateStopLoss_detail ex sm symbol pos newStopLoss reason :
  positions sm !! symbol = Some pos ->
  directionOk pos newStopLoss ->
  UpdateStopLoss ex sm symbol newStopLoss reason
  = match stopOrderAnswer ex pos newStopLoss with
    | inl orderID =>
        (store symbol
           (set_CurrentStopLoss newStopLoss
              (set_StopLossOrderID (pretty orderID)
                 (AddStopLossEvent ex (CurrentStopLoss pos) newStopLoss
                    reason "llm" pos))) sm,
         cancelRequests pos ++ [stopOrderRequest ex pos newStopLoss], None)
    | inr cause =>
        (store symbol
           (set_StopLossOrderID (orderIDAfterCancel ex pos)
              (AddStopLossEvent ex (CurrentStopLoss pos) newStopLoss
                 reason "llm" pos)) sm,
         cancelRequests pos ++ [stopOrderRequest ex pos newStopLoss],
         Some (ErrWrap (ErrPlaceStop cause)))
    end.
Proof.
  intros Hpos Hdir.
  destruct (direction_checks_pass _ _ Hdir) as [Hl Hs].
  unfold UpdateStopLoss. rewrite Hpos; cbv zeta. rewrite Hl, Hs.
  unfold cancelStopLossOrder, placeStopLossOrder, stopOrderRequest,
    stopOrderAnswer, stopOrderSide, AddStopLossEvent, cancelRequests,
    orderIDAfterCancel.
  destruct pos as [sym side entry qty isl csl hp cp slt oid hist tp].
  cbn [Symbol Side EntryPrice Quantity InitialStopLoss CurrentStopLoss
       HighestPrice CurrentPrice StopLossType StopLossOrderID
       StopLossHistory TakeProfit set_StopLossHistory set_StopLossOrderID
       set_CurrentStopLoss] in *.
  destruct (String.eqb_spec oid "") as [-> | Hoid]; cbn [negb];
    [| destruct (cancelOrder ex (GetBinanceSymbolFor sym) oid)];
    cbn [Symbol Side EntryPrice Quantity InitialStopLoss CurrentStopLoss
         HighestPrice CurrentPrice StopLossType StopLossOrderID
         StopLossHistory TakeProfit set_StopLossHistory set_StopLossOrderID
         set_CurrentStopLoss];
    destruct (createOrder ex (GetBinanceSymbolFor sym)
                (if String.eqb side "short" then SideTypeBuy else SideTypeSell)
                (sprintf_2f ex newStopLoss) (sprintf_4f ex qty));
    reflexivity.
Qed.

(** X13. What an update that passes the direction check sends, whatever
    the exchange answers: the cancellation of the resting order when the
    position holds an order id, then the new stop order, which carries the
    proposed price printed with two decimals and the quantity of the
    position printed with four; a refused cancellation does not stop the
    new order from being sent. *)
Theorem update_requests_in_order (ex : Exchange) (sm : StopLossManager)
    (symbol : string) (pos : Position) (newStopLoss : Q) (reason : string) :
  positions sm !! symbol = Some pos ->
  directionOk pos newStopLoss ->
  (UpdateStopLoss ex sm symbol newStopLoss reason).1.2
  = (if String.eqb (StopLossOrderID pos) "" then []
     else [ReqCancelOrder (GetBinanceSymbolFor (Symbol pos))
             (StopLossOrderID pos)])
    ++ [ReqCreateStopOrder (GetBinanceSymbolFor (Symbol pos))
          (if String.eqb (Side pos) "short" then SideTypeBuy else SideTypeSell)
          (sprintf_2f ex newStopLoss) (sprintf_4f ex (Quantity pos))].
Proof.
  intros Hpos Hdir.
  rewrite (UpdateStopLoss_detail ex sm symbol pos newStopLoss reason Hpos Hdir).
  by destruct (stopOrderAnswer _ _ _).
Qed.

Lemma update_requests_in_order_witness :
  (UpdateStopLoss refusingExchange
     (UpdateStopLoss acceptingExchange btcManager "BTCUSDT" 50750 "trail").1.1
     "BTCUSDT" 51750 "trail").1.2
  = [ReqCancelOrder "BTCUSDT" "1001";
     ReqCreateStopOrder "BTCUSDT" SideTypeSell "51750.00" "1.0000"].
Proof.
  rewrite (update_requests_in_order refusingExchange _ "BTCUSDT"
             (set_CurrentStopLoss 50750
                (set_StopLossOrderID "1001"
                   (AddStopLossEvent acceptingExchange 48750 50750 "trail" "llm"
                      (set_StopLossType "fixed" btcLong))))).
  - reflexivity.
  - vm_compute. reflexivity.
  - long_direction.
Defined.

(** X14. What an update that passes the direction check records.  When
    the exchange accepts the new order, its id and the new stop, with no
    error.  When it refuses the order, the error is returned, the stop is
    the old one, and the order id is empty if no order was resting or the
    old order was cancelled (the position is left without a resting
    order), and still the old id if the cancellation was refused too. *)
Theorem update_order_id_outcomes (ex : Exchange) (sm : StopLossManager)
    (symbol : string) (pos : Position) (newStopLoss : Q) (reason : string) :
  positions sm !! symbol = Some pos ->
  directionOk pos newStopLoss ->
  let r := UpdateStopLoss ex sm symbol newStopLoss reason in
  let binanceSymbol := GetBinanceSymbolFor (Symbol pos) in
  exists pos',
    GetPosition r.1.1 symbol = Some pos'
    /\ match createOrder ex binanceSymbol (stopOrderSide pos)
               (sprintf_2f ex newStopLoss) (sprintf_4f ex (Quantity pos)) with
       | inl orderID =>
           r.2 = None
           /\ StopLossOrderID pos' = pretty orderID
           /\ CurrentStopLoss pos' = newStopLoss
       | inr cause =>
           r.2 = Some (ErrWrap (ErrPlaceStop cause))
           /\ CurrentStopLoss pos' = CurrentStopLoss pos
           /\ (StopLossOrderID pos = ""
               \/ cancelOrder ex binanceSymbol (StopLossOrderID pos) = None ->
               StopLossOrderID pos' = "")
           /\ (StopLossOrderID pos <> ""
               /\ cancelOrder ex binanceSymbol (StopLossOrderID pos) <> None ->
               StopLossOrderID pos' = StopLossOrderID pos)
       end.
Proof.
  intros Hpos Hdir r binanceSymbol. subst r.
  rewrite (UpdateStopLoss_detail ex sm symbol pos newStopLoss reason Hpos Hdir).
  unfold stopOrderAnswer. fold binanceSymbol. unfold GetPosition.
  destruct (createOrder ex binanceSymbol _ _ _) as [orderID | cause];
    cbn [fst snd];
    rewrite lookup_store, decide_True by done; eexists; (split; [reflexivity |]).
  - destruct pos; by cbn.
  - unfold orderIDAfterCancel. subst binanceSymbol.
    destruct pos as [sym side entry qty isl csl hp cp slt oid hist tp]; cbn in *.
    split; [done |]. split; [done |].
    destruct (String.eqb_spec oid "") as [-> | Hoid].
    + split; [done |]. by intros [Hne _].
    + destruct (cancelOrder ex (remove_slashes sym) oid) eqn:Hcancel.
      * split; [| done]. by intros [-> | ?].
      * split; [done |]. by intros [_ Hne].
Qed.

Lemma update_order_id_outcomes_witness :
  exists pos',
    GetPosition
      (UpdateStopLoss refusingExchange btcManager "BTCUSDT" 50750 "trail").1.1
      "BTCUSDT" = Some pos'
    /\ StopLossOrderID pos' = "" /\ CurrentStopLoss pos' = 48750.
Proof.
  destruct (update_order_id_outcomes refusingExchange btcManager "BTCUSDT"
              (set_StopLossType "fixed" btcLong) 50750 "trail")
    as (pos' & Hget & Hout).
  - vm_compute. reflexivity.
  - long_direction.
  - exists pos'. split; [exact Hget |].
    cbn in Hout. destruct Hout as (_ & Hstop & Hid & _).
    split; [apply Hid; left; reflexivity | exact Hstop].
Defined.

(** X15. A price tick on a position registered under its own symbol.
    While the stop is not triggered nothing is sent, no error is returned
    and the position stays, with the new price.  When it is triggered
    exactly one market close of the whole quantity is sent (close-short
    for a short position, close-long otherwise): if the exchange fills it
    the position is removed and no error is returned; if not, the error is
    returned and the position stays registered with the new price. *)
Theorem price_tick_outcomes (ex : Exchange) (sm : StopLossManager)
    (symbol : string) (pos : Position) (currentPrice : Q) :
  positions sm !! symbol = Some pos ->
  Symbol pos = symbol ->
  let ticked := UpdatePrice currentPrice pos in
  let action :=
    if String.eqb (Side pos) "short" then ActionCloseShort
    else ActionCloseLong in
  let result := executeTrade ex symbol action (Quantity pos) in
  let r := UpdatePosition ex sm symbol currentPrice in
  if ShouldTriggerStopLoss ticked then
    r.1.2 = [ReqExecuteTrade symbol action (Quantity pos)]
    /\ if Success result
       then r.2 = None /\ GetPosition r.1.1 symbol = None
       else r.2 = Some (ErrStopLossClose (Message result))
            /\ GetPosition r.1.1 symbol = Some ticked
  else
    r.1.2 = [] /\ r.2 = None /\ GetPosition r.1.1 symbol = Some ticked.
Proof.
  intros Hpos Hsym ticked action result r.
  destruct (UpdatePrice_static currentPrice pos)
    as [(Hsym' & Hside' & _ & _ & Hqty' & _) _].
  fold ticked in Hsym', Hside', Hqty'.
  subst r. unfold UpdatePosition, GetPosition. rewrite Hpos; cbv zeta.
  fold ticked. destruct (ShouldTriggerStopLoss ticked).
  - unfold executeStopLoss. rewrite Hsym', Hside', Hqty', Hsym.
    fold action. fold result.
    destruct (Success result); cbn [fst snd].
    + split; [done |]. split; [done |].
      unfold RemovePosition; cbn. apply lookup_delete_eq.
    + split; [done |]. split; [done |].
      rewrite lookup_store. by rewrite decide_True.
  - cbn [fst snd]. split; [done |]. split; [done |].
    rewrite lookup_store. by rewrite decide_True.
Qed.

Lemma price_tick_outcomes_witness :
  (UpdatePosition acceptingExchange btcManager "BTCUSDT" 48000).1.2
  = [ReqExecuteTrade "BTCUSDT" ActionCloseLong 1]
  /\ GetPosition
       (UpdatePosition acceptingExchange btcManager "BTCUSDT" 48000).1.1
       "BTCUSDT" = None.
Proof.
  pose proof (price_tick_outcomes acceptingExchange btcManager "BTCUSDT"
                (set_StopLossType "fixed" btcLong) 48000) as H.
  cbn zeta in H.
  destruct H as (Hsent & _ & Hgone);
    [vm_compute; reflexivity | reflexivity |].
  split; [exact Hsent | exact Hgone].
Defined.

Lemma pretty_N_go_length x : forall s,
  (String.length s <= String.length (pretty_N_go x s))%nat.
Proof.
  induction (N.lt_wf_0 x) as [x _ IH]; intros s.
  destruct (decide (x = 0)%N) as [-> | Hx]; [by rewrite pretty_N_go_0 |].
  rewrite pretty_N_go_step by lia.
  etrans; [| apply IH; apply N.div_lt; lia]. simpl. lia.
Qed.

(** The printed form of an order id ([fmt.Sprintf("%d", id)]) is never the
    empty string, which the manager reads as "no resting order". *)
Lemma pretty_Z_nonempty (orderID : Z) : pretty orderID <> "".
Proof.
  assert (Hpos : forall p : positive, pretty (Z.pos p) <> "").
  { intros p Hp. unfold pretty, pretty_Z, pretty, pretty_positive,
      pretty, pretty_N in Hp.
    rewrite decide_False in Hp by done.
    rewrite pretty_N_go_step in Hp by lia.
    pose proof (pretty_N_go_length (N.pos p `div` 10)
                  (String (pretty_N_char (N.pos p `mod` 10)) "")) as Hlen.
    rewrite Hp in Hlen. simpl in Hlen. lia. }
  destruct orderID as [| p | p]; [done | apply Hpos |].
  unfold pretty, pretty_Z. done.
Qed.

(** X16. The initial stop order and the first update.  When the exchange
    accepts the initial order, [PlaceInitialStopLoss] has sent one stop
    order, which carries the initial stop printed with two decimals and
    the quantity printed with four, and has recorded its id; the next
    update that passes the direction check cancels exactly that order
    before it places the new one.  When the exchange refuses the initial
    order, the error is returned and the position is exactly as it was. *)
Theorem initial_order_then_update (ex ex' : Exchange) (pos : Position)
    (sm : StopLossManager) (symbol : string) (newStopLoss : Q)
    (reason : string) :
  let binanceSymbol := GetBinanceSymbolFor (Symbol pos) in
  let request :=
    ReqCreateStopOrder binanceSymbol (stopOrderSide pos)
      (sprintf_2f ex (InitialStopLoss pos)) (sprintf_4f ex (Quantity pos)) in
  let answer :=
    createOrder ex binanceSymbol (stopOrderSide pos)
      (sprintf_2f ex (InitialStopLoss pos)) (sprintf_4f ex (Quantity pos)) in
  let placed := (PlaceInitialStopLoss ex pos).1.1 in
  (forall cause,
     answer = inr cause ->
     PlaceInitialStopLoss ex pos = (pos, [request], Some (ErrPlaceStop cause)))
  /\ (forall orderID,
        answer = inl orderID ->
        PlaceInitialStopLoss ex pos
        = (set_StopLossOrderID (pretty orderID) pos, [request], None)
        /\ (positions sm !! symbol = Some placed ->
            directionOk placed newStopLoss ->
            (UpdateStopLoss ex' sm symbol newStopLoss reason).1.2
            = [ReqCancelOrder binanceSymbol (pretty orderID);
               ReqCreateStopOrder binanceSymbol (stopOrderSide pos)
                 (sprintf_2f ex' newStopLoss)
                 (sprintf_4f ex' (Quantity pos))])).
Proof.
  intros binanceSymbol request answer placed. subst placed answer.
  unfold PlaceInitialStopLoss, placeStopLossOrder. cbv zeta.
  fold binanceSymbol. fold (stopOrderSide pos). fold request.
  split.
  - intros cause Hrefused. by rewrite Hrefused.
  - intros orderID Haccepted. rewrite Haccepted. cbn [fst].
    split; [done |]. intros Hpos Hdir.
    rewrite (UpdateStopLoss_detail ex' sm symbol _ newStopLoss reason Hpos Hdir).
    assert (Hsent : cancelRequests (set_StopLossOrderID (pretty orderID) pos)
                    ++ [stopOrderRequest ex'
                          (set_StopLossOrderID (pretty orderID) pos) newStopLoss]
                    = [ReqCancelOrder binanceSymbol (pretty orderID);
                       ReqCreateStopOrder binanceSymbol (stopOrderSide pos)
                         (sprintf_2f ex' newStopLoss)
                         (sprintf_4f ex' (Quantity pos))]).
    { unfold cancelRequests, stopOrderRequest, stopOrderSide, binanceSymbol.
      destruct pos as [sym side entry qty isl csl hp cp slt oid hist tp].
      cbn [Symbol Side Quantity StopLossOrderID set_StopLossOrderID].
      destruct (String.eqb_spec (pretty orderID) "") as [Hempty | _]; [| done].
      by destruct (pretty_Z_nonempty orderID). }
    by destruct (stopOrderAnswer ex' _ _).
Qed.

Lemma initial_order_then_update_witness :
  (UpdateStopLoss refusingExchange
     (store "BTCUSDT" (PlaceInitialStopLoss acceptingExchange btcLong).1.1
        NewStopLossManager)
     "BTCUSDT" 50750 "trail").1.2
  = [ReqCancelOrder "BTCUSDT" "1001";
     ReqCreateStopOrder "BTCUSDT" SideTypeSell "50750.00" "1.0000"].
Proof.
  apply (proj2 (initial_order_then_update acceptingExchange refusingExchange
                  btcLong
                  (store "BTCUSDT"
                     (PlaceInitialStopLoss acceptingExchange btcLong).1.1
                     NewStopLossManager)
                  "BTCUSDT" 50750 "trail") 1001%Z).
  - reflexivity.
  - vm_compute. reflexivity.
  - long_direction.
Defined.

(** X17. Cancelling the resting order.  With no order id nothing is sent.
    Otherwise one cancellation of that id is sent; when it succeeds the
    order id is cleared, so that cancelling again sends nothing, on any
    exchange; when it is refused the error is returned and the position
    is exactly as it was.  No other field is written. *)
Theorem cancel_stop_order (ex ex' : Exchange) (pos : Position) :
  let r := cancelStopLossOrder ex pos in
  r.1.2 = cancelRequests pos
  /\ set_StopLossOrderID (StopLossOrderID pos) r.1.1 = pos
  /\ (r.2 = None ->
      StopLossOrderID r.1.1 = ""
      /\ cancelStopLossOrder ex' r.1.1 = (r.1.1, [], None))
  /\ (r.2 <> None -> r.1.1 = pos).
Proof.
  unfold cancelStopLossOrder, cancelRequests. cbv zeta.
  destruct pos as [sym side entry qty isl csl hp cp slt oid hist tp].
  cbn [Symbol StopLossOrderID].
  destruct (String.eqb_spec oid "") as [-> | Hoid]; cbn [fst snd].
  - repeat split; done.
  - destruct (cancelOrder ex (GetBinanceSymbolFor sym) oid); cbn [fst snd];
      repeat split; done.
Qed.

Lemma cancel_stop_order_witness :
  cancelStopLossOrder refusingExchange
    (cancelStopLossOrder acceptingExchange
       (set_StopLossOrderID "1001" btcLong)).1.1
  = ((cancelStopLossOrder acceptingExchange
        (set_StopLossOrderID "1001" btcLong)).1.1, [], None).
Proof.
  apply (cancel_stop_order acceptingExchange refusingExchange
           (set_StopLossOrderID "1001" btcLong)).
  reflexivity.
Defined.

(** ** The snapshot and the monitoring tick *)

(** X18. The snapshot of [GetAllPositions] holds exactly the registered
    positions, one entry for each symbol; it is empty for the new manager
    and one longer after a registration under a fresh symbol. *)
Theorem snapshot_holds_registered_positions (sm : StopLossManager)
    (pos : Position) :
  (forall p, p ∈ GetAllPositions sm
             <-> exists symbol, GetPosition sm symbol = Some p)
  /\ List.length (GetAllPositions sm) = size (positions sm)
  /\ GetAllPositions NewStopLossManager = []
  /\ (GetPosition sm (Symbol pos) = None ->
      List.length (GetAllPositions (RegisterPosition pos sm))
      = S (List.length (GetAllPositions sm))).
Proof.
  unfold GetAllPositions, GetPosition.
  split; [| split; [| split]].
  - intros p. rewrite list_elem_of_fmap. split.
    + intros ([symbol p'] & -> & Hin). exists symbol.
      by apply elem_of_map_to_list.
    + intros (symbol & Hlookup). exists (symbol, p). split; [done |].
      by apply elem_of_map_to_list.
  - by rewrite length_fmap, length_map_to_list.
  - cbn. by rewrite map_to_list_empty.
  - intros Hfresh. rewrite !length_fmap, !length_map_to_list.
    destruct pos; cbn in *. by apply map_size_insert_None.
Qed.

Lemma snapshot_holds_registered_positions_witness :
  List.length (GetAllPositions (RegisterPosition btcLong NewStopLossManager))
  = 1%nat.
Proof.
  destruct (snapshot_holds_registered_positions NewStopLossManager btcLong)
    as (_ & _ & Hempty & Hgrow).
  rewrite Hgrow; [by rewrite Hempty | reflexivity].
Defined.

(** Two states of a position that differ in the current and the highest
    price only. *)
Definition priceOnly (p p' : Position) : Prop :=
  sameStatic p p'
  /\ CurrentStopLoss p' = CurrentStopLoss p
  /\ StopLossType p' = StopLossType p
  /\ StopLossOrderID p' = StopLossOrderID p
  /\ StopLossHistory p' = StopLossHistory p.

(** Every position of [sm'] is a position of [sm] under the same symbol,
    up to its prices. *)
Definition tickedFrom (sm sm' : StopLossManager) : Prop :=
  forall symbol p', positions sm' !! symbol = Some p' ->
    exists p, positions sm !! symbol = Some p /\ priceOnly p p'.

Definition isTrade (request : Request) : Prop :=
  match request with
  | ReqExecuteTrade _ _ _ => True
  | _ => False
  end.

Lemma priceOnly_refl p : priceOnly p p.
Proof. split; [apply sameStatic_refl | done]. Qed.

Lemma priceOnly_trans p1 p2 p3 :
  priceOnly p1 p2 -> priceOnly p2 p3 -> priceOnly p1 p3.
Proof.
  unfold priceOnly, sameStatic. intros H1 H2.
  destruct H1 as ((? & ? & ? & ? & ? & ?) & ? & ? & ? & ?).
  destruct H2 as ((? & ? & ? & ? & ? & ?) & ? & ? & ? & ?).
  repeat split; congruence.
Qed.

Lemma UpdatePrice_priceOnly price pos : priceOnly pos (UpdatePrice price pos).
Proof.
  destruct (UpdatePrice_static price pos) as [Hst Hstop].
  split; [done |]. split; [done |].
  unfold UpdatePrice.
  destruct pos as [sym side entry qty isl csl hp cp slt oid hist tp].
  cbn [Side HighestPrice set_CurrentPrice].
  destruct (String.eqb side "long"), (String.eqb side "short"),
    (Qgtb price hp), (Qltb price hp); done.
Qed.

Lemma tickedFrom_refl sm : tickedFrom sm sm.
Proof. intros s p Hp. exists p. split; [done | apply priceOnly_refl]. Qed.

Lemma tickedFrom_trans sm1 sm2 sm3 :
  tickedFrom sm1 sm2 -> tickedFrom sm2 sm3 -> tickedFrom sm1 sm3.
Proof.
  intros H12 H23 s p3 Hp3.
  destruct (H23 s p3 Hp3) as (p2 & Hp2 & Hr23).
  destruct (H12 s p2 Hp2) as (p1 & Hp1 & Hr12).
  exists p1. split; [done |]. by apply (priceOnly_trans _ p2).
Qed.

Lemma UpdatePosition_tickedFrom ex sm symbol price :
  tickedFrom sm (UpdatePosition ex sm symbol price).1.1
  /\ Forall isTrade (UpdatePosition ex sm symbol price).1.2.
Proof.
  destruct (positions sm !! symbol) as [pos |] eqn:Hpos.
  2:{ unfold UpdatePosition. rewrite Hpos. split;
        [apply tickedFrom_refl | constructor]. }
  split.
  - assert (Hstore : tickedFrom sm (store symbol (UpdatePrice price pos) sm)).
    { intros s p'. rewrite lookup_store. case_decide as Hs.
      - intros [= <-]. subst s. exists pos.
        split; [done | apply UpdatePrice_priceOnly].
      - intros Hp. exists p'. split; [done | apply priceOnly_refl]. }
    destruct (UpdatePosition_manager ex sm symbol pos price Hpos) as [-> | ->];
      [done |].
    intros s p'. unfold RemovePosition; cbn. rewrite lookup_delete_Some.
    intros [_ Hp]. by apply Hstore.
  - unfold UpdatePosition. rewrite Hpos; cbv zeta.
    destruct (ShouldTriggerStopLoss _); [| constructor].
    unfold executeStopLoss. destruct (Success _); by repeat constructor.
Qed.

Lemma monitor_fold_invariant ex feed sm0 snapshot : forall acc,
  tickedFrom sm0 acc.1 -> Forall isTrade acc.2 ->
  tickedFrom sm0 (foldl (monitorPosition ex feed) acc snapshot).1
  /\ Forall isTrade (foldl (monitorPosition ex feed) acc snapshot).2.
Proof.
  induction snapshot as [| pos snapshot IH]; intros [sm sent] Hsm Hsent;
    [done |].
  cbn [foldl]. apply IH; unfold monitorPosition;
    destruct (getCurrentPrice feed (Symbol pos)) as [price | err]; try done;
    destruct (UpdatePosition_tickedFrom ex sm (Symbol pos) price) as [Ht Hs];
    destruct (UpdatePosition ex sm (Symbol pos) price) as [[sm' sent'] err'];
    cbn [fst snd] in *.
  - by apply (tickedFrom_trans _ sm).
  - by apply Forall_app.
Qed.

Lemma monitor_fold_no_price ex feed snapshot : forall acc,
  (forall symbol, exists err, getCurrentPrice feed symbol = inr err) ->
  foldl (monitorPosition ex feed) acc snapshot = acc.
Proof.
  induction snapshot as [| pos snapshot IH]; intros [sm sent] Hfail; [done |].
  cbn [foldl]. unfold monitorPosition at 2.
  destruct (Hfail (Symbol pos)) as [err ->]. by apply IH.
Qed.

(** X19. A tick of the monitoring loop only closes positions: whatever
    the prices and the answers of the exchange, it registers no position,
    every position still registered is the one registered before with at
    most its current and highest price changed (its stop, order id and
    history are not written), and all requests sent are market closes.
    When no price can be fetched the tick changes nothing and sends
    nothing. *)
Theorem monitoring_tick_only_closes (ex : Exchange) (feed : PriceFeed)
    (sm : StopLossManager) :
  (forall symbol pos',
     GetPosition (monitorTick ex feed sm).1 symbol = Some pos' ->
     exists pos,
       GetPosition sm symbol = Some pos
       /\ sameStatic pos pos'
       /\ CurrentStopLoss pos' = CurrentStopLoss pos
       /\ StopLossOrderID pos' = StopLossOrderID pos
       /\ StopLossHistory pos' = StopLossHistory pos)
  /\ Forall isTrade (monitorTick ex feed sm).2
  /\ ((forall symbol, exists err, getCurrentPrice feed symbol = inr err) ->
      monitorTick ex feed sm = (sm, [])).
Proof.
  unfold monitorTick, GetPosition.
  destruct (monitor_fold_invariant ex feed sm (GetAllPositions sm) (sm, []))
    as [Hticked Htrades]; [apply tickedFrom_refl | constructor |].
  split; [| split].
  - intros symbol pos' Hpos'.
    destruct (Hticked symbol pos' Hpos') as (pos & Hpos & Hst & Hstop & _ & Hid & Hh).
    by exists pos.
  - done.
  - intros Hfail. by apply monitor_fold_no_price.
Qed.

(** A feed with no price at all. *)
Definition silentFeed : PriceFeed := {| listPrices := fun _ => inl [] |}.

Lemma monitoring_tick_only_closes_witness :
  monitorTick acceptingExchange silentFeed btcManager = (btcManager, []).
Proof.
  apply (monitoring_tick_only_closes acceptingExchange silentFeed btcManager).
  intros symbol. exists ErrNoPriceData. reflexivity.
Defined.

(** ** More on the take-profit ladder *)

(** The loop on any list of rungs: nothing happens, or one rung of the
    list that has not executed is handed to the exchange. *)
Lemma monitorLevels_cases ex pos config price count rest : forall i,
  monitorLevels ex pos config price count i rest = (pos, [], count, None)
  \/ exists j level,
       level ∈ rest /\ Executed level = false
       /\ monitorLevels ex pos config price count i rest
          = executeRung ex pos config count j level.
Proof.
  induction rest as [| level rest IH]; intros i; [by left |].
  destruct (Executed level) eqn:He.
  { rewrite monitorLevels_skip by (by left).
    destruct (IH (S i)) as [Hnone | (j & l & Hin & Hl & Hexec)]; [by left |].
    right. exists j, l. split; [by apply list_elem_of_further | done]. }
  destruct (targetReached (Side pos) price (TargetPrice level)) eqn:Hr.
  - right. exists i, level. split; [apply list_elem_of_here |].
    split; [done |]. by apply monitorLevels_hit.
  - rewrite monitorLevels_skip by (by right).
    destruct (IH (S i)) as [Hnone | (j & l & Hin & Hl & Hexec)]; [by left |].
    right. exists j, l. split; [by apply list_elem_of_further | done].
Qed.

Lemma MonitorAndExecute_cases ex pos price :
  MonitorAndExecute ex pos price = (pos, [], 0%nat, None)
  \/ exists config j level,
       TakeProfit pos = Some config
       /\ level ∈ Levels config /\ Executed level = false
       /\ MonitorAndExecute ex pos price = executeRung ex pos config 0 j level.
Proof.
  unfold MonitorAndExecute.
  destruct (TakeProfit pos) as [config |] eqn:Htp; [| by left].
  destruct (Enabled config); cbn [negb]; [| by left].
  destruct (monitorLevels_cases ex pos config price 0 (Levels config) 0)
    as [Hnone | (j & level & Hin & Hl & Hexec)]; [by left |].
  right. by exists config, j, level.
Qed.

(** X20. [MonitorAndExecute] writes the quantity and the ladder of the
    position and nothing else, whatever the ladder, the price and the
    answer of the exchange: the side, the entry price, both stops, the
    prices, the order id and the history are as before.  In particular the
    stop is not moved when a rung executes.  It sends at most one request,
    which is a market close. *)
Theorem ladder_writes_quantity_and_rungs_only (ex : Exchange)
    (pos : Position) (price : Q) :
  let r := MonitorAndExecute ex pos price in
  set_Quantity (Quantity pos) (set_TakeProfit (TakeProfit pos) (resultPosition r))
  = pos
  /\ CurrentStopLoss (resultPosition r) = CurrentStopLoss pos
  /\ (List.length (resultRequests r) <= 1)%nat
  /\ Forall isTrade (resultRequests r).
Proof.
  intros r. subst r.
  destruct (MonitorAndExecute_cases ex pos price)
    as [-> | (config & j & level & _ & _ & _ & ->)].
  - unfold resultPosition, resultRequests; cbn.
    destruct pos; cbn. repeat split; (lia || constructor).
  - unfold executeRung. destruct (Success _);
      unfold resultPosition, resultRequests; cbn [fst snd];
      destruct pos; cbn; repeat split; (lia || by repeat constructor).
Qed.

(** X21. The accounting of a call of [MonitorAndExecute], whatever the
    ladder.  When it returns an error the position is exactly as it was
    and the count is zero, so the rung is tried again at the next call.
    When it counts an execution, it has sent one close whose quantity is
    the share [Percentage] of the quantity of the position before the
    call, for a rung that had not executed, and the quantity of the
    position has gone down by exactly the quantity sent. *)
Theorem ladder_call_accounting (ex : Exchange) (pos : Position) (price : Q) :
  let r := MonitorAndExecute ex pos price in
  (resultCount r <= 1)%nat
  /\ (resultError r <> None -> resultPosition r = pos /\ resultCount r = 0%nat)
  /\ (resultCount r = 0%nat -> resultPosition r = pos)
  /\ (resultCount r = 1%nat ->
      resultError r = None
      /\ exists level,
           level ∈ levelsOf pos /\ Executed level = false
           /\ tradeQuantities (resultRequests r)
              = [Quantity pos * Percentage level]
           /\ Quantity (resultPosition r)
              = Quantity pos - Quantity pos * Percentage level).
Proof.
  intros r. subst r.
  destruct (MonitorAndExecute_cases ex pos price)
    as [-> | (config & j & level & Htp & Hin & Hl & ->)].
  - unfold resultCount, resultError, resultPosition; cbn.
    repeat split; done || lia.
  - unfold executeRung. destruct (Success _);
      unfold resultCount, resultError, resultPosition, resultRequests;
      cbn [fst snd].
    + split; [lia |]. split; [done |]. split; [done |].
      intros _. split; [done |]. exists level.
      unfold levelsOf. rewrite Htp. destruct pos; cbn. done.
    + repeat split; done || lia.
Qed.

Lemma ladder_call_accounting_witness :
  resultPosition
    (MonitorAndExecute refusingExchange (InitializeTakeProfitLevels btcLong)
       51250)
  = InitializeTakeProfitLevels btcLong.
Proof.
  destruct (ladder_call_accounting refusingExchange
              (InitializeTakeProfitLevels btcLong) 51250) as (_ & Herr & _).
  apply Herr. vm_compute. discriminate.
Defined.

(** The rung a call looks at: the first one that has not executed. *)
Definition nextRung (pos : Position) : option TakeProfitLevel :=
  List.find (fun level => negb (Executed level)) (levelsOf pos).

Lemma MonitorAndExecute_next_rung ex pos price e1 e2 e3 t1 t2 t3 p1 p2 p3 :
  let levels :=
    ladderOf (Side pos) (EntryPrice pos) (InitialStopLoss pos)
      e1 e2 e3 t1 t2 t3 p1 p2 p3 in
  let config := {| Enabled := true; Levels := levels |} in
  TakeProfit pos = Some config ->
  (e2 = true -> e1 = true) -> (e3 = true -> e2 = true) ->
  match nextRung pos with
  | None => MonitorAndExecute ex pos price = (pos, [], 0%nat, None)
  | Some level =>
      if targetReached (Side pos) price (TargetPrice level) then
        exists k,
          levels !! k = Some level
          /\ map Executed levels = replicate k true ++ replicate (3 - k) false
          /\ MonitorAndExecute ex pos price
             = executeRung ex pos config 0 k level
      else MonitorAndExecute ex pos price = (pos, [], 0%nat, None)
  end.
Proof.
  intros levels config Htp H21 H32.
  pose proof (fun side entry stop =>
                proj1 (targetReached_later_false side entry stop price))
    as Hf12.
  pose proof (fun side entry stop =>
                proj2 (targetReached_later_false side entry stop price))
    as Hf23.
  unfold nextRung, levelsOf, MonitorAndExecute. rewrite Htp.
  cbn [Enabled negb Levels config]. unfold levels, ladderOf.
  destruct e1.
  2:{ assert (e2 = false) as -> by (destruct e2; [discriminate H21 |]; done).
      assert (e3 = false) as -> by (destruct e3; [discriminate H32 |]; done).
      cbn [List.find rung Executed negb TargetPrice].
      destruct (targetReached (Side pos) price
                  (targetAt (Side pos) (EntryPrice pos) (InitialStopLoss pos) 1.0))
        eqn:Hr1.
      - exists 0%nat. split; [reflexivity |]. split; [reflexivity |].
        by apply monitorLevels_hit.
      - rewrite monitorLevels_skip by (right; exact Hr1).
        rewrite monitorLevels_skip by (right; exact (Hf12 _ _ _ Hr1)).
        rewrite monitorLevels_skip
          by (right; exact (Hf23 _ _ _ (Hf12 _ _ _ Hr1))).
        apply monitorLevels_nil. }
  rewrite monitorLevels_skip by (by left).
  destruct e2.
  2:{ assert (e3 = false) as -> by (destruct e3; [discriminate H32 |]; done).
      cbn [List.find rung Executed negb TargetPrice].
      destruct (targetReached (Side pos) price
                  (targetAt (Side pos) (EntryPrice pos) (InitialStopLoss pos) 2.0))
        eqn:Hr2.
      - exists 1%nat. split; [reflexivity |]. split; [reflexivity |].
        by apply monitorLevels_hit.
      - rewrite monitorLevels_skip by (right; exact Hr2).
        rewrite monitorLevels_skip by (right; exact (Hf23 _ _ _ Hr2)).
        apply monitorLevels_nil. }
  rewrite monitorLevels_skip by (by left).
  destruct e3.
  2:{ cbn [List.find rung Executed negb TargetPrice].
      destruct (targetReached (Side pos) price
                  (targetAt (Side pos) (EntryPrice pos) (InitialStopLoss pos) 3.0))
        eqn:Hr3.
      - exists 2%nat. split; [reflexivity |]. split; [reflexivity |].
        by apply monitorLevels_hit.
      - rewrite monitorLevels_skip by (right; exact Hr3).
        apply monitorLevels_nil. }
  cbn [List.find rung Executed negb].
  rewrite monitorLevels_skip by (by left). apply monitorLevels_nil.
Qed.

(** X22. On a position with an initialized ladder a call looks at one
    rung only, the first that has not executed.  It sends a close, of the
    share [Percentage] of the present quantity, exactly when the price has
    reached the target of that rung (at or above it for a long position,
    at or below it otherwise); when the price is short of it, or when all
    rungs have executed, the call does nothing and sends nothing. *)
Theorem ladder_trades_when_next_target_reached (ex : Exchange)
    (pos : Position) (price : Q) :
  ladder_reachable pos ->
  let r := MonitorAndExecute ex pos price in
  match nextRung pos with
  | None => r = (pos, [], 0%nat, None)
  | Some level =>
      if (if String.eqb (Side pos) "long"
          then Qle_bool (TargetPrice level) price
          else Qle_bool price (TargetPrice level))
      then resultRequests r
           = [ReqExecuteTrade (Symbol pos)
                (if String.eqb (Side pos) "short" then ActionCloseShort
                 else ActionCloseLong)
                (Quantity pos * Percentage level)]
      else r = (pos, [], 0%nat, None)
  end.
Proof.
  intros Hreach r. subst r. apply ladder_reachable_inv in Hreach.
  destruct Hreach as
    (e1 & e2 & e3 & t1 & t2 & t3 & p1 & p2 & p3 & Htp & H21 & H32).
  pose proof (MonitorAndExecute_next_rung ex pos price _ _ _ _ _ _ _ _ _
                Htp H21 H32) as Hnext.
  destruct (nextRung pos) as [level |]; [| done].
  change (if String.eqb (Side pos) "long"
          then Qle_bool (TargetPrice level) price
          else Qle_bool price (TargetPrice level))
    with (targetReached (Side pos) price (TargetPrice level)).
  destruct (targetReached (Side pos) price (TargetPrice level)); [| done].
  destruct Hnext as (k & _ & _ & ->).
  unfold executeRung. by destruct (Success _).
Qed.

Lemma ladder_trades_when_next_target_reached_witness :
  MonitorAndExecute acceptingExchange (InitializeTakeProfitLevels btcLong) 51000
  = (InitializeTakeProfitLevels btcLong, [], 0%nat, None).
Proof.
  exact (ladder_trades_when_next_target_reached acceptingExchange
           (InitializeTakeProfitLevels btcLong) 51000 (reach_init btcLong)).
Defined.

Lemma entry_before_first_target side entry initialStop :
  if String.eqb side "long"
  then entry <= targetAt side entry initialStop 1.0
  else targetAt side entry initialStop 1.0 <= entry.
Proof.
  unfold targetAt.
  pose proof (Qabs_nonneg (entry - initialStop)) as Hrd.
  destruct (String.eqb side "long"); lra.
Qed.

Lemma GetMinimumStopLoss_ladder pos e1 e2 e3 t1 t2 t3 p1 p2 p3 :
  TakeProfit pos
  = Some {| Enabled := true;
            Levels := ladderOf (Side pos) (EntryPrice pos)
                        (InitialStopLoss pos) e1 e2 e3 t1 t2 t3 p1 p2 p3 |} ->
  GetMinimumStopLoss pos
  = if e1 then
      if e2 then
        if e3
        then (targetAt (Side pos) (EntryPrice pos) (InitialStopLoss pos) 2.0, true)
        else (targetAt (Side pos) (EntryPrice pos) (InitialStopLoss pos) 1.0, true)
      else (EntryPrice pos, true)
    else (0, false).
Proof.
  intros Htp. unfold GetMinimumStopLoss. rewrite Htp.
  by destruct e1, e2, e3.
Qed.

(** X23. On a position with an initialized ladder the floor only
    tightens: a floor that exists before a call of [MonitorAndExecute]
    exists after it and has not moved against the position (not down for
    a long position, not up otherwise).  The floor a rung installs when it
    executes is not beyond the price of the call (at or below it for a
    long position, at or above it otherwise). *)
Theorem floor_only_tightens (ex : Exchange) (pos : Position) (price : Q) :
  ladder_reachable pos ->
  let r := MonitorAndExecute ex pos price in
  (forall floor, GetMinimumStopLoss pos = (floor, true) ->
     exists floor',
       GetMinimumStopLoss (resultPosition r) = (floor', true)
       /\ if String.eqb (Side pos) "long" then floor <= floor'
          else floor' <= floor)
  /\ (resultCount r = 1%nat ->
      exists floor',
        GetMinimumStopLoss (resultPosition r) = (floor', true)
        /\ if String.eqb (Side pos) "long" then floor' <= price
           else price <= floor').
Proof.
  intros Hreach r. subst r. apply ladder_reachable_inv in Hreach.
  destruct Hreach as
    (e1 & e2 & e3 & t1 & t2 & t3 & p1 & p2 & p3 & Htp & H21 & H32).
  pose proof (MonitorAndExecute_next_rung ex pos price _ _ _ _ _ _ _ _ _
                Htp H21 H32) as Hnext.
  pose proof (GetMinimumStopLoss_ladder pos _ _ _ _ _ _ _ _ _ Htp) as Hfloor.
  assert (Hsame : forall floor, GetMinimumStopLoss pos = (floor, true) ->
            exists floor', GetMinimumStopLoss pos = (floor', true)
              /\ if String.eqb (Side pos) "long" then floor <= floor'
                 else floor' <= floor).
  { intros floor Hf. exists floor. split; [done |].
    destruct (String.eqb (Side pos) "long"); apply Qle_refl. }
  destruct (nextRung pos) as [level |]; [| rewrite Hnext; by split].
  destruct (targetReached (Side pos) price (TargetPrice level)) eqn:Hreached;
    [| rewrite Hnext; by split].
  destruct Hnext as (k & Hk & Hflags & ->).
  unfold executeRung. destruct (Success _); [| by split].
  unfold resultPosition, resultCount. cbn [fst snd].
  pose proof (entry_before_first_target (Side pos) (EntryPrice pos)
                (InitialStopLoss pos)) as H01.
  assert (H123 :
    if String.eqb (Side pos) "long"
    then targetAt (Side pos) (EntryPrice pos) (InitialStopLoss pos) 1.0
         <= targetAt (Side pos) (EntryPrice pos) (InitialStopLoss pos) 2.0
         /\ targetAt (Side pos) (EntryPrice pos) (InitialStopLoss pos) 2.0
            <= targetAt (Side pos) (EntryPrice pos) (InitialStopLoss pos) 3.0
    else targetAt (Side pos) (EntryPrice pos) (InitialStopLoss pos) 2.0
         <= targetAt (Side pos) (EntryPrice pos) (InitialStopLoss pos) 1.0
         /\ targetAt (Side pos) (EntryPrice pos) (InitialStopLoss pos) 3.0
            <= targetAt (Side pos) (EntryPrice pos) (InitialStopLoss pos) 2.0).
  { destruct (String.eqb (Side pos) "long") eqn:Hside;
      [by apply targets_long | by apply targets_not_long]. }
  unfold targetReached in Hreached.
  destruct pos as [sym side entry qty isl csl hp cp slt oid hist tp].
  cbn [Side EntryPrice InitialStopLoss TakeProfit Quantity Symbol] in *.
  destruct k as [| [| [| k]]]; cbn in Hk, Hflags; [| | | done];
    injection Hflags as -> -> ->; injection Hk as <-;
    cbn [TargetPrice rung] in Hreached; rewrite Hfloor;
    unfold GetMinimumStopLoss; cbn;
    (split; [intros floor [= <-] || intros floor [=] | intros _]);
    eexists; (split; [reflexivity |]);
    destruct (String.eqb side "long");
    apply (proj1 (Qle_bool_iff _ _)) in Hreached;
    destruct H123 as [H12 H23]; lra.
Qed.

Lemma floor_only_tightens_witness :
  exists floor',
    GetMinimumStopLoss
      (resultPosition
         (MonitorAndExecute acceptingExchange
            (InitializeTakeProfitLevels btcLong) 51250)) = (floor', true)
    /\ floor' <= 51250.
Proof.
  destruct (floor_only_tightens acceptingExchange
              (InitializeTakeProfitLevels btcLong) 51250 (reach_init btcLong))
    as [_ Hexec].
  apply Hexec. reflexivity.
Defined.

Lemma risk_distance_positive entry initialStop :
  ~ entry == initialStop -> 0 < Qabs (entry - initialStop).
Proof.
  intros Hne. destruct (Qlt_le_dec 0 (Qabs (entry - initialStop))) as [| Hle];
    [done |].
  exfalso. apply Hne. apply Qabs_Qle_condition in Hle. lra.
Qed.

Lemma risk_distance_zero entry initialStop :
  entry == initialStop -> Qabs (entry - initialStop) == 0.
Proof.
  intros Heq. assert (H0 : entry - initialStop == 0) by lra.
  rewrite H0. reflexivity.
Qed.

(** X24. What [InitializeTakeProfitLevels] gives for any position, also
    one whose ladder had executed rungs: three rungs, none executed, so no
    floor; shares that add up to the whole position; nothing written but
    the ladder; and the same result when it is applied again.  When the
    entry price differs from the initial stop the targets are strictly
    ordered beyond the entry price (rising for a long position, falling
    otherwise); when they are equal every target is the entry price. *)
Theorem fresh_ladder (pos : Position) :
  let fresh := InitializeTakeProfitLevels pos in
  executedFlags fresh = [false; false; false]
  /\ GetMinimumStopLoss fresh = (0, false)
  /\ set_TakeProfit (TakeProfit pos) fresh = pos
  /\ InitializeTakeProfitLevels fresh = fresh
  /\ exists l1 l2 l3,
       levelsOf fresh = [l1; l2; l3]
       /\ Percentage l1 + Percentage l2 + Percentage l3 == 1
       /\ (~ EntryPrice pos == InitialStopLoss pos ->
           if String.eqb (Side pos) "long"
           then EntryPrice pos < TargetPrice l1
                /\ TargetPrice l1 < TargetPrice l2
                /\ TargetPrice l2 < TargetPrice l3
           else TargetPrice l3 < TargetPrice l2
                /\ TargetPrice l2 < TargetPrice l1
                /\ TargetPrice l1 < EntryPrice pos)
       /\ (EntryPrice pos == InitialStopLoss pos ->
           TargetPrice l1 == EntryPrice pos
           /\ TargetPrice l2 == EntryPrice pos
           /\ TargetPrice l3 == EntryPrice pos).
Proof.
  intros fresh. subst fresh.
  unfold executedFlags, levelsOf, GetMinimumStopLoss.
  rewrite InitializeTakeProfitLevels_ladder.
  split; [done |]. split; [done |]. split; [by destruct pos |].
  split; [by destruct pos |].
  do 3 eexists. split; [reflexivity |]. cbn [Percentage TargetPrice rung].
  split; [reflexivity |]. unfold targetAt. split.
  - intros Hne. pose proof (risk_distance_positive _ _ Hne) as Hrd.
    destruct (String.eqb (Side pos) "long"); repeat split; lra.
  - intros Heq. pose proof (risk_distance_zero _ _ Heq) as Hrd.
    destruct (String.eqb (Side pos) "long"); repeat split; rewrite Hrd; ring.
Qed.

Lemma fresh_ladder_witness :
  exists l1 l2 l3,
    levelsOf (InitializeTakeProfitLevels btcLong) = [l1; l2; l3]
    /\ 50000 < TargetPrice l1
    /\ TargetPrice l1 < TargetPrice l2
    /\ TargetPrice l2 < TargetPrice l3.
Proof.
  destruct (fresh_ladder btcLong)
    as (_ & _ & _ & _ & l1 & l2 & l3 & Hlevels & _ & Hstrict & _).
  exists l1, l2, l3. split; [exact Hlevels |].
  apply Hstrict. discriminate.
Defined.

(** X25. A position with no ladder, with a disabled ladder or with a
    ladder whose rungs have all executed is left alone by
    [MonitorAndExecute]: nothing is sent and nothing is written, at any
    price. *)
Theorem finished_ladder_is_inert (ex : Exchange) (pos : Position) (price : Q) :
  (TakeProfit pos = None
   \/ exists config,
        TakeProfit pos = Some config
        /\ (Enabled config = false
            \/ Forall (fun level => Executed level = true) (Levels config))) ->
  MonitorAndExecute ex pos price = (pos, [], 0%nat, None).
Proof.
  intros Hinert.
  destruct (MonitorAndExecute_cases ex pos price)
    as [Hnone | (config & j & level & Htp & Hin & Hl & _)]; [done |].
  destruct Hinert as [Hno | (config' & Htp' & [Hoff | Hall])].
  - rewrite Hno in Htp. discriminate Htp.
  - unfold MonitorAndExecute. rewrite Htp'. by rewrite Hoff.
  - rewrite Htp in Htp'. injection Htp' as <-.
    rewrite Forall_forall in Hall.
    rewrite (Hall level Hin) in Hl. discriminate Hl.
Qed.

Lemma finished_ladder_is_inert_witness :
  MonitorAndExecute acceptingExchange btcLong 60000 = (btcLong, [], 0%nat, None).
Proof.
  apply (finished_ladder_is_inert acceptingExchange btcLong 60000).
  left. reflexivity.
Defined.

(** ** Runs of the manager: what is never written, and the history *)

(** An entry the manager appends for a position: it comes from an update
    and does not record a move against the side of the position. *)
Definition eventOk (pos : Position) (event : StopLossEvent) : Prop :=
  Trigger event = "llm"
  /\ (Side pos = "long" -> OldStop event <= NewStop event)
  /\ (Side pos = "short" -> NewStop event <= OldStop event).

Lemma step_history sm op s pos pos' :
  positions sm !! s = Some pos ->
  positions (step sm op) !! s = Some pos' ->
  StopLossHistory pos' = StopLossHistory pos
  \/ exists event,
       StopLossHistory pos' = StopLossHistory pos ++ [event]
       /\ eventOk pos event.
Proof.
  intros Hpos Hpos'.
  destruct op as [ex k newStop reason | ex k price]; simpl in Hpos'.
  - destruct (positions sm !! k) as [posk |] eqn:Hk.
    2:{ unfold UpdateStopLoss in Hpos'. rewrite Hk in Hpos'. simpl in Hpos'.
        rewrite Hpos in Hpos'. injection Hpos' as <-. by left. }
    destruct (String.eqb (Side posk) "long"
              && Qltb newStop (CurrentStopLoss posk)) eqn:Hl.
    { unfold UpdateStopLoss in Hpos'. rewrite Hk in Hpos'; cbv zeta in Hpos'.
      rewrite Hl in Hpos'. simpl in Hpos'. rewrite Hpos in Hpos'.
      injection Hpos' as <-. by left. }
    destruct (String.eqb (Side posk) "short"
              && Qgtb newStop (CurrentStopLoss posk)) eqn:Hs.
    { unfold UpdateStopLoss in Hpos'. rewrite Hk in Hpos'; cbv zeta in Hpos'.
      rewrite Hl, Hs in Hpos'. simpl in Hpos'. rewrite Hpos in Hpos'.
      injection Hpos' as <-. by left. }
    pose proof (direction_checks_pass_inv _ _ Hl Hs) as Hdir.
    destruct (UpdateStopLoss_passed ex sm k posk newStop reason Hk Hdir)
      as (p' & pre & _ & Hhist & Hres).
    assert (Hsm : (UpdateStopLoss ex sm k newStop reason).1.1 = store k p' sm)
      by (destruct (stopOrderAnswer _ _ _); by destruct Hres as [-> _]).
    rewrite Hsm, lookup_store in Hpos'. case_decide as Hks.
    + subst k. rewrite Hpos in Hk. injection Hk as <-. injection Hpos' as <-.
      right. eexists. split; [exact Hhist |].
      destruct Hdir as [Hlong Hshort]. by repeat split.
    + rewrite Hpos in Hpos'. injection Hpos' as <-. by left.
  - left. destruct (positions sm !! k) as [posk |] eqn:Hk.
    2:{ unfold UpdatePosition in Hpos'. rewrite Hk in Hpos'. simpl in Hpos'.
        rewrite Hpos in Hpos'. by injection Hpos' as <-. }
    destruct (UpdatePosition_tickedFrom ex sm k price) as [Hticked _].
    destruct (Hticked s pos' Hpos') as (p & Hp & _ & _ & _ & _ & Hh).
    rewrite Hpos in Hp. by injection Hp as <-.
Qed.

Lemma run_absent ops : forall sm s,
  positions sm !! s = None -> positions (foldl step sm ops) !! s = None.
Proof.
  induction ops as [| op ops IH]; intros sm s Hs; [done |].
  cbn. apply IH. by apply step_absent.
Qed.

Lemma run_history ops : forall sm s pos pos',
  positions sm !! s = Some pos ->
  positions (foldl step sm ops) !! s = Some pos' ->
  sameStatic pos pos'
  /\ exists added,
       StopLossHistory pos' = StopLossHistory pos ++ added
       /\ Forall (eventOk pos) added.
Proof.
  induction ops as [| op ops IH]; intros sm s pos pos' Hpos Hpos'.
  - cbn in Hpos'. rewrite Hpos in Hpos'. injection Hpos' as <-.
    split; [apply sameStatic_refl |]. exists []. by rewrite app_nil_r.
  - cbn in Hpos'.
    destruct (positions (step sm op) !! s) as [pos1 |] eqn:Hpos1.
    2:{ rewrite (run_absent ops _ _ Hpos1) in Hpos'. discriminate Hpos'. }
    destruct (step_lookup _ _ _ _ _ Hpos Hpos1) as [Hst1 _].
    destruct (IH _ _ _ _ Hpos1 Hpos') as (Hst & added & Hadded & Hok).
    assert (Hside : Side pos1 = Side pos) by (by destruct Hst1 as (_ & ? & _)).
    assert (Hok' : Forall (eventOk pos) added).
    { eapply Forall_impl; [exact Hok |]. unfold eventOk.
      intros event. by rewrite Hside. }
    split.
    { destruct Hst1 as (? & ? & ? & ? & ? & ?).
      destruct Hst as (? & ? & ? & ? & ? & ?).
      repeat split; congruence. }
    destruct (step_history _ _ _ _ _ Hpos Hpos1)
      as [Hsame | (event & Hone & Hevent)].
    + exists added. by rewrite Hadded, Hsame.
    + exists (event :: added). split.
      * by rewrite Hadded, Hone, <- app_assoc.
      * by constructor.
Qed.

(** X26. Over any run of stop updates and price ticks, a position that is
    still registered has the symbol, side, entry price, initial stop,
    quantity and ladder it had at the start (the manager never writes
    them, so the floor of the ladder is not changed either), and its
    history is the old history with entries appended: nothing is removed
    or rewritten, and every appended entry comes from an update and
    records a move that is not against the side of the position. *)
Theorem manager_run_keeps_ladder_and_history (sm : StopLossManager)
    (ops : list Op) (symbol : string) (pos pos' : Position) :
  positions sm !! symbol = Some pos ->
  positions (foldl step sm ops) !! symbol = Some pos' ->
  sameStatic pos pos'
  /\ GetMinimumStopLoss pos' = GetMinimumStopLoss pos
  /\ exists added,
       StopLossHistory pos' = StopLossHistory pos ++ added
       /\ (List.length added <= List.length ops)%nat
       /\ Forall (fun event =>
                    Trigger event = "llm"
                    /\ (Side pos = "long" -> OldStop event <= NewStop event)
                    /\ (Side pos = "short" -> NewStop event <= OldStop event))
            added.
Proof.
  intros Hpos Hpos'.
  destruct (run_history ops sm symbol pos pos' Hpos Hpos')
    as (Hst & added & Hadded & Hok).
  split; [done |]. split; [by apply GetMinimumStopLoss_static |].
  exists added. split; [done |]. split; [| done].
  clear Hst Hok. revert sm pos pos' added Hpos Hpos' Hadded.
  induction ops as [| op ops IH]; intros sm pos pos' added Hpos Hpos' Hadded.
  - cbn in Hpos'. rewrite Hpos in Hpos'. injection Hpos' as <-.
    assert (Hnil : added = []).
    { apply (app_inv_head (StopLossHistory pos)). by rewrite app_nil_r. }
    by rewrite Hnil.
  - cbn in Hpos'.
    destruct (positions (step sm op) !! symbol) as [pos1 |] eqn:Hpos1.
    2:{ rewrite (run_absent ops _ _ Hpos1) in Hpos'. discriminate Hpos'. }
    destruct (run_history ops _ symbol pos1 pos' Hpos1 Hpos')
      as (_ & added1 & Hadded1 & _).
    specialize (IH _ _ _ _ Hpos1 Hpos' Hadded1).
    destruct (step_history _ _ _ _ _ Hpos Hpos1)
      as [Hsame | (event & Hone & _)].
    + rewrite Hsame in Hadded1. rewrite Hadded1 in Hadded.
      apply app_inv_head in Hadded. subst added1. cbn. lia.
    + rewrite Hone, <- app_assoc in Hadded1. rewrite Hadded1 in Hadded.
      apply app_inv_head in Hadded. subst added. cbn in *. lia.
Qed.

Lemma manager_run_keeps_ladder_and_history_witness :
  exists pos',
    positions
      (foldl step btcManager
         [ OpUpdateStopLoss acceptingExchange "BTCUSDT" 50750 "trail";
           OpUpdateStopLoss acceptingExchange "BTCUSDT" 49000 "lower";
           OpUpdatePosition acceptingExchange "BTCUSDT" 53000 ])
      !! "BTCUSDT" = Some pos'
    /\ Quantity pos' = 1
    /\ exists added,
         StopLossHistory pos' = added /\ (List.length added <= 3)%nat.
Proof.
  eexists. split; [vm_compute; reflexivity |].
  match goal with
  | |- Quantity ?p = _ /\ _ =>
      destruct (manager_run_keeps_ladder_and_history btcManager
                  [ OpUpdateStopLoss acceptingExchange "BTCUSDT" 50750 "trail";
                    OpUpdateStopLoss acceptingExchange "BTCUSDT" 49000 "lower";
                    OpUpdatePosition acceptingExchange "BTCUSDT" 53000 ]
                  "BTCUSDT" (set_StopLossType "fixed" btcLong) p)
        as ((_ & _ & _ & _ & Hqty & _) & _ & added & Hadded & Hlen & _)
  end.
  - vm_compute. reflexivity.
  - vm_compute. reflexivity.
  - split; [exact Hqty |]. exists added. split; [exact Hadded | exact Hlen].
Defined.
